(** * trafai frontend: route / graph visualisation and cost normalisation

    A shallow embedding of the React components of the repository
    (StatsPanel.jsx, MapComponent.jsx in its Leaflet and Google variants,
    ControlPanel.jsx in its legacy and coordinate variants, and the polling
    App) together with the properties of the natural-language specification
    that are settled against them.

    Conventions of the embedding.
    - A JavaScript number is a value of [num]: the special values NaN,
      +Infinity and -Infinity are kept, a finite number is an exact
      rational.  Rounding of binary64 arithmetic and the sign of zero are
      not modelled (zero is +0), so the properties stated over [num] are
      those that do not depend on either.  Where the rounding itself
      decides (the additivity of the projection), the arithmetic of the
      program is used: module [Binary64], on primitive binary64 floats.
    - A field that a JSON payload may lack is an [option]; [None] is
      JavaScript's [undefined].
    - A render function returns the element tree as a record; a render
      that throws returns [Throw].
    - An [async] handler is a transition system: one step per invocation
      and one step per settled promise. *)

From Stdlib Require Import QArith Qabs Qround Qminmax ZArith List String Ascii Bool Lia Lqa.
From Stdlib Require Import DecimalString.
From Stdlib Require Floats.PrimFloat.
Import ListNotations.

Local Open Scope string_scope.

(* ------------------------------------------------------------------ *)
(** ** JavaScript numbers *)

Module Num.

Inductive num : Type :=
| NaN
| PosInf
| NegInf
| Fin (q : Q).

Definition of_Z (z : Z) : num := Fin (inject_Z z).

(** Sign of a value that is not NaN, as a comparison with zero. *)
Definition sign (a : num) : option comparison :=
  match a with
  | NaN => None
  | PosInf => Some Gt
  | NegInf => Some Lt
  | Fin q => Some (q ?= 0)%Q
  end.

(** The infinity (or NaN) a product or quotient overflows to, from the
    signs of its operands; a zero operand gives NaN. *)
Definition inf_of_signs (s t : comparison) : num :=
  match s, t with
  | Eq, _ | _, Eq => NaN
  | Gt, Gt | Lt, Lt => PosInf
  | Gt, Lt | Lt, Gt => NegInf
  end.

Definition neg (a : num) : num :=
  match a with
  | NaN => NaN
  | PosInf => NegInf
  | NegInf => PosInf
  | Fin q => Fin (- q)
  end.

(** [a + b] *)
Definition add (a b : num) : num :=
  match a, b with
  | NaN, _ | _, NaN => NaN
  | PosInf, NegInf | NegInf, PosInf => NaN
  | PosInf, _ | _, PosInf => PosInf
  | NegInf, _ | _, NegInf => NegInf
  | Fin p, Fin q => Fin (p + q)
  end.

(** [a - b] *)
Definition sub (a b : num) : num := add a (neg b).

(** [a * b] *)
Definition mul (a b : num) : num :=
  match a, b with
  | Fin p, Fin q => Fin (p * q)
  | _, _ =>
      match sign a, sign b with
      | Some s, Some t => inf_of_signs s t
      | _, _ => NaN
      end
  end.

(** [a / b]: a finite non-zero value over zero is an infinity, 0/0 and
    Infinity/Infinity are NaN, a finite value over an infinity is 0. *)
Definition div (a b : num) : num :=
  match a, b with
  | NaN, _ | _, NaN => NaN
  | Fin p, Fin q =>
      match (q ?= 0)%Q with
      | Eq => match (p ?= 0)%Q with
              | Eq => NaN
              | Gt => PosInf
              | Lt => NegInf
              end
      | _ => Fin (p / q)
      end
  | Fin _, _ => Fin 0
  | _, Fin q =>
      match sign a with
      | Some s => inf_of_signs s (match (q ?= 0)%Q with Lt => Lt | _ => Gt end)
      | None => NaN
      end
  | _, _ => NaN
  end.

(** [a < b]; every comparison with NaN is false. *)
Definition ltb (a b : num) : bool :=
  match a, b with
  | NaN, _ | _, NaN => false
  | _, NegInf => false
  | NegInf, _ => true
  | PosInf, _ => false
  | _, PosInf => true
  | Fin p, Fin q => match (p ?= q)%Q with Lt => true | _ => false end
  end.

(** [a > b] *)
Definition gtb (a b : num) : bool := ltb b a.

(** [a <= b] *)
Definition leb (a b : num) : bool :=
  match a, b with
  | NaN, _ | _, NaN => false
  | NegInf, _ => true
  | _, PosInf => true
  | _, NegInf => false
  | PosInf, _ => false
  | Fin p, Fin q => match (p ?= q)%Q with Gt => false | _ => true end
  end.

Definition is_nan (a : num) : bool :=
  match a with NaN => true | _ => false end.

(** [Math.max(a, b)]: NaN when an argument is NaN. *)
Definition max (a b : num) : num :=
  if is_nan a || is_nan b then NaN else if ltb a b then b else a.

(** [Math.min(a, b)]: NaN when an argument is NaN. *)
Definition min (a b : num) : num :=
  if is_nan a || is_nan b then NaN else if ltb b a then b else a.

(** The same number: equal rationals, or the same special value. *)
Definition same (a b : num) : Prop :=
  match a, b with
  | NaN, NaN | PosInf, PosInf | NegInf, NegInf => True
  | Fin p, Fin q => (p == q)%Q
  | _, _ => False
  end.

(** [lo <= a <= hi] for a finite [a]. *)
Definition between (lo hi : Q) (a : num) : Prop :=
  match a with
  | Fin q => (lo <= q /\ q <= hi)%Q
  | _ => False
  end.

(** *** Number.prototype.toFixed *)

Fixpoint zeros (n : nat) : string :=
  match n with
  | O => ""
  | S k => String "0" (zeros k)
  end.

Definition digits_of (n : Z) : string :=
  NilZero.string_of_uint (N.to_uint (Z.to_N n)).

Definition pow10 (f : nat) : Z := 10 ^ Z.of_nat f.

(** The decimal text of [n / 10^f] for a natural [n], with [f] digits
    after the point. *)
Definition fixed_text (f : nat) (n : Z) : string :=
  let m := digits_of n in
  match f with
  | O => m
  | _ =>
      let k := String.length m in
      let m' := if Nat.leb k f then zeros (f + 1 - k) ++ m else m in
      let k' := String.length m' in
      substring 0 (k' - f) m' ++ "." ++ substring (k' - f) f m'
  end.

(** [x.toFixed(f)].  The integer [n] with [n / 10^f] closest to [|x|] is
    taken, the larger one on a tie.  From 10^21 on JavaScript switches to
    the exponent notation of Number::toString, whose digits depend on the
    binary64 representation: the model gives no text there ([None]). *)
Definition toFixed (f : nat) (x : num) : option string :=
  match x with
  | NaN => Some "NaN"
  | PosInf => Some "Infinity"
  | NegInf => Some "-Infinity"
  | Fin q =>
      let a := Qabs q in
      if Qle_bool (inject_Z (10 ^ 21)) a then None
      else
        let n := Qfloor (a * inject_Z (pow10 f) + (1 # 2)) in
        let s := match (q ?= 0)%Q with Lt => "-" | _ => "" end in
        Some (s ++ fixed_text f n)
  end.

End Num.

Import Num.

(* ------------------------------------------------------------------ *)
(** ** The data model of the /route and /network/layout payloads *)

(** Result of a render or of a handler body: a value, or a thrown
    exception with its message. *)
Inductive result (A : Type) : Type :=
| Ok (a : A)
| Throw (msg : string).
Arguments Ok {A} a.
Arguments Throw {A} msg.

Definition NodeId := string.

Record Node : Type := mkNode {
  id : NodeId;
  x : num;
  y : num
}.

Record Edge : Type := mkEdge {
  source : NodeId;
  target : NodeId;
  capacity : num;
  current_flow : num
}.

Record Graph : Type := mkGraph {
  nodes : list Node;
  edges : list Edge
}.

(** A geographic point of a route geometry; a field that is not a number
    is [None]. *)
Record LatLng : Type := mkLatLng {
  lat : option num;
  lng : option num
}.

(** The [stats] object of a route result; an absent field is [None]. *)
Record CostVector : Type := mkCostVector {
  total_cost : option num;
  time_cost : option num;
  congestion_penalty : option num;
  emission_cost : option num;
  social_cost : option num;
  travel_time_hours : option num
}.

(** The body of a /route response.  [path] and [geometry] are [None]
    when the field is absent or is not an array; an entry of [geometry]
    is [None] when it is null. *)
Record RouteData : Type := mkRouteData {
  path : option (list NodeId);
  geometry : option (list (option LatLng));
  path_nodes : option (list NodeId);
  stats : option CostVector
}.

(** The object [{}]. *)
Definition empty_stats : CostVector :=
  mkCostVector None None None None None None.

(* ------------------------------------------------------------------ *)
(** ** StatsPanel.jsx *)

Module StatsPanel.

(** A destructuring default [field = 0]: it applies to [undefined]. *)
Definition default0 (field : option num) : num :=
  match field with
  | Some v => v
  | None => Fin 0
  end.

Record BarView : Type := mkBarView {
  bar_label : string;
  bar_value_text : option string;   (* value.toFixed(2) *)
  bar_width : num;                  (* the percentage of the CSS width *)
  bar_color : string
}.

Inductive Footer : Type :=
| PathNodes (n : nat)
| GoogleMapsRoute.

Record StatsView : Type := mkStatsView {
  travel_time_text : option string;  (* followed by "min" *)
  total_cost_text : option string;
  bars : list BarView;
  footer : Footer
}.

(** [const getPercent = (val) =>
      Math.min(100, Math.max(5, (val / total_cost) * 100))],
    with the [total_cost] of its closure as first argument. *)
Definition getPercent (total_cost val : num) : num :=
  min (of_Z 100) (max (of_Z 5) (mul (div val total_cost) (of_Z 100))).

(** [function CostBar({ label, value, total, color, icon })] *)
Definition CostBar (label : string) (value total : num) (color : string)
  : BarView :=
  let percent := mul (div value total) (of_Z 100) in
  mkBarView label (toFixed 2 value) percent color.

(** [export default function StatsPanel({ data })]; [None] is the
    rendering of [null]. *)
Definition StatsPanel (data : option RouteData) : option StatsView :=
  match data with
  | None => None
  | Some d =>
      let st := match stats d with Some s => s | None => empty_stats end in
      let total_cost := default0 (total_cost st) in
      let time_cost := default0 (time_cost st) in
      let congestion_penalty := default0 (congestion_penalty st) in
      let emission_cost := default0 (emission_cost st) in
      let social_cost := default0 (social_cost st) in
      let travel_time_hours := default0 (travel_time_hours st) in
      match stats d with
      | None => None
      | Some _ =>
          Some (mkStatsView
                  (toFixed 1 (mul travel_time_hours (of_Z 60)))
                  (toFixed 2 total_cost)
                  [ CostBar "Time" time_cost total_cost "#3b82f6";
                    CostBar "Congestion" congestion_penalty total_cost "#f59e0b";
                    CostBar "Emission" emission_cost total_cost "#10b981";
                    CostBar "Social" social_cost total_cost "#8b5cf6" ]
                  (match path_nodes d with
                   | Some ((_ :: _) as l) => PathNodes (List.length l)
                   | _ => GoogleMapsRoute
                   end))
      end
  end.

(** *** Vocabulary of the specification *)

(** A field of the cost vector read as the specification says: its
    value when present, the number 0 when absent. *)
Definition or_zero (field : option num) : num :=
  match field with
  | Some v => v
  | None => Fin 0
  end.

(** The cost vector with the number 0 written in every absent field. *)
Definition with_zeros (st : CostVector) : CostVector :=
  mkCostVector
    (match total_cost st with Some v => Some v | None => Some (Fin 0) end)
    (match time_cost st with Some v => Some v | None => Some (Fin 0) end)
    (match congestion_penalty st with Some v => Some v | None => Some (Fin 0) end)
    (match emission_cost st with Some v => Some v | None => Some (Fin 0) end)
    (match social_cost st with Some v => Some v | None => Some (Fin 0) end)
    (match travel_time_hours st with Some v => Some v | None => Some (Fin 0) end).

(** The bar the specification expects for a component: its label, its
    value with two decimals, the raw percentage of the total, its
    colour. *)
Definition expected_bar (label : string) (value total : option num)
  (color : string) : BarView :=
  mkBarView label (toFixed 2 (or_zero value))
            (mul (div (or_zero value) (or_zero total)) (of_Z 100)) color.

End StatsPanel.

(* ------------------------------------------------------------------ *)
(** ** MapComponent.jsx, Leaflet variant (legacy grid backend) *)

Module Leaflet.

(** A Leaflet position [[lat, lng]]. *)
Definition Position : Type := (num * num)%type.

(** [const SCALE = 0.005] *)
Definition SCALE : num := Fin (5 # 1000).

Definition centerLat : num := Fin (51505 # 1000).
Definition centerLng : num := Fin (- (9 # 100)).

(** [const getLatLng = (x, y) =>
      [centerLat + y * SCALE, centerLng + x * SCALE]] *)
Definition getLatLng (x y : num) : Position :=
  (add centerLat (mul y SCALE), add centerLng (mul x SCALE)).

(** [graph.nodes.find(n => n.id === id)] *)
Definition find_node (graph : Graph) (i : NodeId) : option Node :=
  List.find (fun n => String.eqb (id n) i) (nodes graph).

(** [const getNodePos = (id) => { ...; return n ? getLatLng(n.x, n.y) : [0, 0] }] *)
Definition getNodePos (graph : Graph) (i : NodeId) : Position :=
  match find_node graph i with
  | Some n => getLatLng (x n) (y n)
  | None => (of_Z 0, of_Z 0)
  end.

Record PathOptions : Type := mkPathOptions {
  color : string;
  weight : Z;
  opacity : num;
  dashArray : option string
}.

Record PolylineEl : Type := mkPolyline {
  positions : list Position;
  pathOptions : PathOptions
}.

Record CircleMarkerEl : Type := mkCircleMarker {
  marker_key : NodeId;
  center : Position;
  radius : Z;
  popup : string
}.

(** [edge.current_flow / edge.capacity] *)
Definition load (edge : Edge) : num :=
  div (current_flow edge) (capacity edge).

(** The body of [graph.edges.map((edge, i) => ...)]. *)
Definition render_edge (graph : Graph) (edge : Edge) : PolylineEl :=
  let start := getNodePos graph (source edge) in
  let end_ := getNodePos graph (target edge) in
  let load := div (current_flow edge) (capacity edge) in
  let color := "#94a3b8" in
  let weight := 2%Z in
  let '(color, weight) :=
    if gtb load (Fin (8 # 10)) then ("#ef4444", 4%Z)
    else if gtb load (Fin (5 # 10)) then ("#f59e0b", 3%Z)
    else (color, weight) in
  mkPolyline [start; end_] (mkPathOptions color weight (Fin (8 # 10)) None).

(** The body of [graph.nodes.map(node => ...)]. *)
Definition render_node (node : Node) : CircleMarkerEl :=
  mkCircleMarker (id node) (getLatLng (x node) (y node)) 4 (id node).

(** The effect of [ChangeView]: the two corners handed to
    [map.fitBounds], or [None] when the node list is empty. *)
Definition bounds_step (acc : num * num * num * num) (n : Node)
  : num * num * num * num :=
  let '(minX, maxX, minY, maxY) := acc in
  let minX := if ltb (x n) minX then x n else minX in
  let maxX := if gtb (x n) maxX then x n else maxX in
  let minY := if ltb (y n) minY then y n else minY in
  let maxY := if gtb (y n) maxY then y n else maxY in
  (minX, maxX, minY, maxY).

Definition ChangeView (ns : list Node) : option (Position * Position) :=
  match ns with
  | [] => None
  | _ =>
      let '(minX, maxX, minY, maxY) :=
        fold_left bounds_step ns (PosInf, NegInf, PosInf, NegInf) in
      let lat1 := add centerLat (mul minY SCALE) in
      let lng1 := add centerLng (mul minX SCALE) in
      let lat2 := add centerLat (mul maxY SCALE) in
      let lng2 := add centerLng (mul maxX SCALE) in
      Some ((lat1, lng1), (lat2, lng2))
  end.

Record MapView : Type := mkMapView {
  fit_bounds : option (Position * Position);
  edge_lines : list PolylineEl;
  node_markers : list CircleMarkerEl;
  route_line : option PolylineEl
}.

Definition route_options : PathOptions :=
  mkPathOptions "#10b981" 6 (Fin (9 # 10)) (Some "10, 10").

(** [{routeData && <Polyline positions={routeData.path.map(nodeId =>
    getNodePos(nodeId))} .../>}]: calling [map] on a [path] that
    is absent or not an array throws a TypeError. *)
Definition render_route (graph : Graph) (routeData : option RouteData)
  : result (option PolylineEl) :=
  match routeData with
  | None => Ok None
  | Some rd =>
      match path rd with
      | None => Throw "TypeError"
      | Some ids =>
          Ok (Some (mkPolyline (List.map (getNodePos graph) ids) route_options))
      end
  end.

(** [graph.edges.map((edge, i) => ...)] *)
Definition render_edges (graph : Graph) : list PolylineEl :=
  List.map (render_edge graph) (edges graph).

(** [export default function MapComponent({ graph, routeData })] *)
Definition MapComponent (graph : Graph) (routeData : option RouteData)
  : result MapView :=
  let edge_lines := render_edges graph in
  let node_markers := List.map render_node (nodes graph) in
  match render_route graph routeData with
  | Throw msg => Throw msg
  | Ok route =>
      Ok (mkMapView (ChangeView (nodes graph)) edge_lines node_markers route)
  end.

(** *** Vocabulary of the specification *)

(** Componentwise difference, sum and equality of positions. *)
Definition pos_sub (p q : Position) : Position :=
  (sub (fst p) (fst q), sub (snd p) (snd q)).

Definition pos_add (p q : Position) : Position :=
  (add (fst p) (fst q), add (snd p) (snd q)).

Definition pos_same (p q : Position) : Prop :=
  same (fst p) (fst q) /\ same (snd p) (snd q).

(** The edge styles: colour and weight. *)
Definition emphasized : string * Z := ("#ef4444", 4%Z).
Definition intermediate : string * Z := ("#f59e0b", 3%Z).
Definition baseline : string * Z := ("#94a3b8", 2%Z).

(** The policy in the words of the specification: load > 0.8 is
    emphasized, load in (0.5, 0.8] is intermediate, anything else is
    baseline. *)
Definition style_of_load (l : num) : string * Z :=
  if gtb l (Fin (8 # 10)) then emphasized
  else if gtb l (Fin (5 # 10)) && leb l (Fin (8 # 10)) then intermediate
  else baseline.

End Leaflet.

(* ------------------------------------------------------------------ *)
(** ** MapComponent.jsx, Google Maps variant (coordinate backend) *)

Module GoogleMap.

Record PolylineOptions : Type := mkPolylineOptions {
  strokeColor : string;
  strokeOpacity : num;
  strokeWeight : Z;
  zIndex : Z
}.

Record RouteLayer : Type := mkRouteLayer {
  line_path : list (option LatLng);
  line_options : PolylineOptions;
  start_marker : option LatLng;
  end_marker : option LatLng
}.

(** A point with numeric [lat] and [lng], as [bounds.extend] takes it. *)
Definition valid_point (pt : option LatLng) : option (num * num) :=
  match pt with
  | Some p =>
      match lat p, lng p with
      | Some la, Some ln => Some (la, ln)
      | _, _ => None
      end
  | None => None
  end.

Fixpoint valid_points (pts : list (option LatLng)) : list (num * num) :=
  match pts with
  | [] => []
  | pt :: rest =>
      match valid_point pt with
      | Some p => p :: valid_points rest
      | None => valid_points rest
      end
  end.

(** The effect of [MapBounds] once the map is available: the points
    the viewport is fitted to, route geometry first, graph nodes
    ([lat = y], [lng = x]) when the geometry gives none; [None] when
    there is nothing to fit. *)
Definition MapBounds (ns : list Node) (routeData : option RouteData)
  : option (list (num * num)) :=
  let from_route :=
    match routeData with
    | Some rd =>
        match geometry rd with
        | Some g => valid_points g
        | None => []
        end
    | None => []
    end in
  match from_route with
  | _ :: _ => Some from_route
  | [] =>
      match List.map (fun n => (y n, x n)) ns with
      | [] => None
      | pts => Some pts
      end
  end.

Definition route_line_options : PolylineOptions :=
  mkPolylineOptions "#10b981" (of_Z 1) 6 100.

(** The [try] block of the route render: [Ok None] is falling through
    to [return null]. *)
Definition route_try (rd : RouteData) : result (option RouteLayer) :=
  let path : list (option LatLng) := [] in
  let path :=
    match geometry rd with
    | Some ((_ :: _) as g) => g
    | _ => path
    end in
  if Nat.ltb 0 (List.length path) then
    Ok (Some (mkRouteLayer path route_line_options
                (nth 0 path None)
                (nth (List.length path - 1) path None)))
  else Ok None.

(** [{routeData && (() => { try { ... } catch (e) { console.error(...) }
    return null; })()}] *)
Definition render_route (routeData : option RouteData) : option RouteLayer :=
  match routeData with
  | None => None
  | Some rd =>
      match route_try rd with
      | Ok layer => layer
      | Throw _ => None
      end
  end.

Record MapView : Type := mkMapView {
  fit_bounds : option (list (num * num));
  route_layer : option RouteLayer
}.

(** [export default function MapComponent({ graph, routeData })] *)
Definition MapComponent (graph : Graph) (routeData : option RouteData)
  : result MapView :=
  Ok (mkMapView (MapBounds (nodes graph) routeData) (render_route routeData)).

End GoogleMap.

(* ------------------------------------------------------------------ *)
(** ** App.jsx: the store of the graph and of the route result *)

Module App.

Record State : Type := mkState {
  routeData : option RouteData;
  graph : Graph;
  console : list string      (* console.error lines, latest first *)
}.

(** [useState(null)] and [useState({ nodes: [], edges: [] })] *)
Definition init : State := mkState None (mkGraph [] []) [].

Definition setRouteData (r : option RouteData) (s : State) : State :=
  mkState r (graph s) (console s).

Definition setGraph (g : Graph) (s : State) : State :=
  mkState (routeData s) g (console s).

Definition console_error (line : string) (s : State) : State :=
  mkState (routeData s) (graph s) (line :: console s).

(** How one [api.get('/network/layout')] of [fetchGraph] settles. *)
Inductive poll : Type :=
| LayoutOk (data : Graph)
| LayoutFailed (err : string).

(** [api.get('/network/layout').then(res => { setGraph(res.data) })
      .catch(err => console.error("Failed to load graph", err))] *)
Definition fetchGraph_settled (p : poll) (s : State) : State :=
  match p with
  | LayoutOk data => setGraph data s
  | LayoutFailed err => console_error ("Failed to load graph " ++ err) s
  end.

(** The initial load and the polls of [setInterval(fetchGraph, 5000)],
    in the order in which they settle. *)
Definition run_polls (ps : list poll) (s : State) : State :=
  fold_left (fun s p => fetchGraph_settled p s) ps s.

(** The data of the last poll that succeeded, or the graph held before
    when none did. *)
Definition last_layout (ps : list poll) (g0 : Graph) : Graph :=
  fold_left (fun g p => match p with LayoutOk d => d | LayoutFailed _ => g end)
            ps g0.

End App.

(* ------------------------------------------------------------------ *)
(** ** Errors of the HTTP client *)

Module Http.

(** The body of an error response, [{ detail }]. *)
Record ErrorBody : Type := mkErrorBody {
  detail : option string
}.

Record ErrorResponse : Type := mkErrorResponse {
  status : Z;
  data : option ErrorBody
}.

(** What a rejected request or a throw inside the handler is caught
    as: [response] is absent on a transport failure and on a TypeError. *)
Record RequestError : Type := mkRequestError {
  response : option ErrorResponse;
  message : string
}.

(** [err.response?.data?.detail] *)
Definition response_detail (err : RequestError) : option string :=
  match response err with
  | Some r =>
      match data r with
      | Some b => detail b
      | None => None
      end
  | None => None
  end.

(** A string is truthy when it is not empty. *)
Definition truthy (s : string) : bool :=
  match s with
  | EmptyString => false
  | String _ _ => true
  end.

(** [err.response?.data?.detail || err.message] *)
Definition error_message (err : RequestError) : string :=
  match response_detail err with
  | Some d => if truthy d then d else message err
  | None => message err
  end.

End Http.

(* ------------------------------------------------------------------ *)
(** ** ControlPanel.jsx, coordinate variant (inside MapComponent.jsx) *)

Module ControlPanel.

Import Http.

(** What [PlacesAutocomplete] hands to [setSelected]. *)
Record Location : Type := mkLocation {
  address : string;
  loc_lat : num;
  loc_lng : num
}.

(** The body of [POST /route]. *)
Record Payload : Type := mkPayload {
  start_lat : num;
  start_lon : num;
  end_lat : num;
  end_lon : num;
  time_hour : Z
}.

(** How an awaited [api.post('/route', payload)] settles. *)
Inductive settled : Type :=
| Resolved (data : option RouteData)
| Rejected (err : RequestError).

Record State : Type := mkState {
  startLocation : option Location;
  endLocation : option Location;
  time : Z;
  loading : bool;
  status : string;
  alerts : list string;                 (* alert() texts, latest first *)
  in_flight : list (nat * Payload);     (* awaited requests, by number *)
  issued : nat;                         (* requests issued so far *)
  app : App.State                       (* reached through onRouteComputed *)
}.

(** [useState] initial values, under a given App state. *)
Definition init (a : App.State) : State :=
  mkState None None 8 false "" [] [] 0 a.

Definition setStartLocation (l : Location) (s : State) : State :=
  mkState (Some l) (endLocation s) (time s) (loading s) (status s)
          (alerts s) (in_flight s) (issued s) (app s).

Definition setEndLocation (l : Location) (s : State) : State :=
  mkState (startLocation s) (Some l) (time s) (loading s) (status s)
          (alerts s) (in_flight s) (issued s) (app s).

Definition setTime (t : Z) (s : State) : State :=
  mkState (startLocation s) (endLocation s) t (loading s) (status s)
          (alerts s) (in_flight s) (issued s) (app s).

Definition setLoading (b : bool) (s : State) : State :=
  mkState (startLocation s) (endLocation s) (time s) b (status s)
          (alerts s) (in_flight s) (issued s) (app s).

Definition setStatus (t : string) (s : State) : State :=
  mkState (startLocation s) (endLocation s) (time s) (loading s) t
          (alerts s) (in_flight s) (issued s) (app s).

Definition alert (t : string) (s : State) : State :=
  mkState (startLocation s) (endLocation s) (time s) (loading s) (status s)
          (t :: alerts s) (in_flight s) (issued s) (app s).

Definition with_app (f : App.State -> App.State) (s : State) : State :=
  mkState (startLocation s) (endLocation s) (time s) (loading s) (status s)
          (alerts s) (in_flight s) (issued s) (f (app s)).

(** [api.post('/route', payload)]: the request gets the next number and
    the handler is suspended on it. *)
Definition post_route (p : Payload) (s : State) : State :=
  mkState (startLocation s) (endLocation s) (time s) (loading s) (status s)
          (alerts s) (in_flight s ++ [(S (issued s), p)]) (S (issued s))
          (app s).

Definition is_req (n : nat) (r : nat * Payload) : bool := Nat.eqb (fst r) n.

Definition awaited (n : nat) (s : State) : bool :=
  existsb (is_req n) (in_flight s).

Definition forget (n : nat) (s : State) : State :=
  mkState (startLocation s) (endLocation s) (time s) (loading s) (status s)
          (alerts s)
          (filter (fun r => negb (is_req n r)) (in_flight s))
          (issued s) (app s).

(** [handleRoute], from its call to the [await]. *)
Definition handleRoute (s : State) : State :=
  match startLocation s, endLocation s with
  | Some startLocation, Some endLocation =>
      let s := setLoading true s in
      let s := setStatus "Resolving nodes & Route..." s in
      let payload :=
        mkPayload (loc_lat startLocation) (loc_lng startLocation)
                  (loc_lat endLocation) (loc_lng endLocation) (time s) in
      let s :=
        setStatus
          "Downloading map & Computing route... (this may take a moment)" s in
      post_route payload s
  | _, _ => s
  end.

(** [handleRoute], from the [await] of request [n] on: the rest of the
    [try], the [catch] and the [finally]. *)
Definition handleRoute_resume (n : nat) (r : settled) (s : State) : State :=
  if awaited n s then
    let s := forget n s in
    let s :=
      match r with
      | Resolved data =>
          let s := with_app (App.setRouteData data) s in
          setStatus "Route computed!" s
      | Rejected err =>
          let s := with_app (App.console_error (message err)) s in
          let msg := error_message err in
          let s := alert ("Error: " ++ msg ++ ". Make sure backend is running.") s in
          setStatus "Error occurred." s
      end in
    setLoading false s
  else s.

(** The [disabled] attribute of the Compute Route button. *)
Definition disabled (s : State) : bool :=
  loading s
  || match startLocation s with Some _ => false | None => true end
  || match endLocation s with Some _ => false | None => true end.

(** A click on the button: a disabled button dispatches nothing. *)
Definition click (s : State) : State :=
  if disabled s then s else handleRoute s.

Inductive event : Type :=
| SelectStart (l : Location)
| SelectEnd (l : Location)
| ChangeTime (t : Z)
| Click                                  (* the user clicks Compute Route *)
| Call                                   (* handleRoute is invoked directly *)
| Settle (n : nat) (r : settled).        (* request n settles *)

Definition step (s : State) (e : event) : State :=
  match e with
  | SelectStart l => setStartLocation l s
  | SelectEnd l => setEndLocation l s
  | ChangeTime t => setTime t s
  | Click => click s
  | Call => handleRoute s
  | Settle n r => handleRoute_resume n r s
  end.

Definition run (es : list event) (s : State) : State :=
  fold_left step es s.



End ControlPanel.

(* ------------------------------------------------------------------ *)
(** ** ControlPanel.jsx, legacy variant (addresses geocoded to node ids) *)

Module LegacyControlPanel.

Import Http.

(** The body of [POST /route]. *)
Record Payload : Type := mkPayload {
  start_node : string;
  end_node : string;
  time_hour : Z
}.

(** Where a suspended [handleRoute] waits, with what its closure holds. *)
Inductive stage : Type :=
| AwaitStart (startAddr endAddr : string) (time : Z)
    (* await geocode(startAddr) *)
| AwaitEnd (endAddr : string) (startNode : option NodeId) (time : Z)
    (* await geocode(endAddr) *)
| AwaitRoute (p : Payload).
    (* await api.post('/route', p) *)

(** How an awaited call settles; [node_id] is [None] when the geocode
    response lacks it. *)
Inductive settled : Type :=
| Geocoded (node_id : option NodeId)
| Resolved (data : option RouteData)
| Rejected (err : RequestError).

Record State : Type := mkState {
  startAddr : string;
  endAddr : string;
  time : Z;
  loading : bool;
  status : string;
  alerts : list string;
  in_flight : list (nat * stage);
  issued : nat;
  app : App.State
}.

Definition init (a : App.State) : State :=
  mkState "" "" 8 false "" [] [] 0 a.

Definition setStartAddr (t : string) (s : State) : State :=
  mkState t (endAddr s) (time s) (loading s) (status s)
          (alerts s) (in_flight s) (issued s) (app s).

Definition setEndAddr (t : string) (s : State) : State :=
  mkState (startAddr s) t (time s) (loading s) (status s)
          (alerts s) (in_flight s) (issued s) (app s).

Definition setTime (t : Z) (s : State) : State :=
  mkState (startAddr s) (endAddr s) t (loading s) (status s)
          (alerts s) (in_flight s) (issued s) (app s).

Definition setLoading (b : bool) (s : State) : State :=
  mkState (startAddr s) (endAddr s) (time s) b (status s)
          (alerts s) (in_flight s) (issued s) (app s).

Definition setStatus (t : string) (s : State) : State :=
  mkState (startAddr s) (endAddr s) (time s) (loading s) t
          (alerts s) (in_flight s) (issued s) (app s).

Definition alert (t : string) (s : State) : State :=
  mkState (startAddr s) (endAddr s) (time s) (loading s) (status s)
          (t :: alerts s) (in_flight s) (issued s) (app s).

Definition with_app (f : App.State -> App.State) (s : State) : State :=
  mkState (startAddr s) (endAddr s) (time s) (loading s) (status s)
          (alerts s) (in_flight s) (issued s) (f (app s)).

(** Suspend the handler number [n] at a stage. *)
Definition await (n : nat) (st : stage) (s : State) : State :=
  mkState (startAddr s) (endAddr s) (time s) (loading s) (status s)
          (alerts s) (in_flight s ++ [(n, st)]) (issued s) (app s).

Definition fresh (s : State) : State :=
  mkState (startAddr s) (endAddr s) (time s) (loading s) (status s)
          (alerts s) (in_flight s) (S (issued s)) (app s).

Definition is_call (n : nat) (r : nat * stage) : bool := Nat.eqb (fst r) n.

Definition awaited (n : nat) (s : State) : option stage :=
  option_map snd (find (is_call n) (in_flight s)).

Definition forget (n : nat) (s : State) : State :=
  mkState (startAddr s) (endAddr s) (time s) (loading s) (status s)
          (alerts s)
          (filter (fun r => negb (is_call n r)) (in_flight s))
          (issued s) (app s).

(** The [catch] and [finally] blocks. *)
Definition catch_finally (err : RequestError) (s : State) : State :=
  let s := with_app (App.console_error (message err)) s in
  let msg := error_message err in
  let s := alert ("Error: " ++ msg) s in
  let s := setStatus "Error occurred." s in
  setLoading false s.

(** The TypeError of [startNode.toString()] on an absent node id, as
    the [catch] receives it: no [response], and the [message] of the
    JavaScript engine (here Chrome's and Node's wording), which does not
    carry the error name. *)
Definition toString_error : RequestError :=
  mkRequestError None "Cannot read properties of undefined (reading 'toString')".

(** [handleRoute], from its call to the first [await]. *)
Definition handleRoute (s : State) : State :=
  let s := setLoading true s in
  let s := setStatus "Geocoding addresses..." s in
  let s := fresh s in
  await (issued s) (AwaitStart (startAddr s) (endAddr s) (time s)) s.

(** [handleRoute] number [n], from one [await] to the next or to its end. *)
Definition handleRoute_resume (n : nat) (r : settled) (s : State) : State :=
  match awaited n s with
  | None => s
  | Some st =>
      match st, r with
      | _, Rejected err => catch_finally err (forget n s)
      | AwaitStart _ endAddr time, Geocoded startNode =>
          await n (AwaitEnd endAddr startNode time) (forget n s)
      | AwaitEnd _ startNode time, Geocoded endNode =>
          let s := setStatus "Computing optimal route..." (forget n s) in
          match startNode, endNode with
          | Some a, Some b => await n (AwaitRoute (mkPayload a b time)) s
          | _, _ => catch_finally toString_error s
          end
      | AwaitRoute _, Resolved data =>
          let s := with_app (App.setRouteData data) (forget n s) in
          let s := setStatus "Route computed!" s in
          setLoading false s
      | _, _ => s
      end
  end.

(** The [disabled] attribute of the Compute Route button. *)
Definition disabled (s : State) : bool :=
  loading s || negb (truthy (startAddr s)) || negb (truthy (endAddr s)).

Definition click (s : State) : State :=
  if disabled s then s else handleRoute s.

Inductive event : Type :=
| TypeStart (t : string)
| TypeEnd (t : string)
| ChangeTime (t : Z)
| Click
| Call
| Settle (n : nat) (r : settled).

Definition step (s : State) (e : event) : State :=
  match e with
  | TypeStart t => setStartAddr t s
  | TypeEnd t => setEndAddr t s
  | ChangeTime t => setTime t s
  | Click => click s
  | Call => handleRoute s
  | Settle n r => handleRoute_resume n r s
  end.

Definition run (es : list event) (s : State) : State :=
  fold_left step es s.

End LegacyControlPanel.

(* ------------------------------------------------------------------ *)
(** ** The projection in the arithmetic of the program *)

Module Binary64.

Import PrimFloat.

(** [const SCALE = 0.005], [centerLat = 51.505], [centerLng = -0.09]:
    the nearest binary64 numbers. *)
#[warnings="-inexact-float"]
Definition SCALE : float := 0.005%float.

#[warnings="-inexact-float"]
Definition centerLat : float := 51.505%float.

#[warnings="-inexact-float"]
Definition centerLng : float := (-0.09)%float.

(** [const getLatLng = (x, y) =>
      [centerLat + y * SCALE, centerLng + x * SCALE]],
    every operation rounded to binary64. *)
Definition getLatLng (x y : float) : float * float :=
  ((centerLat + y * SCALE)%float, (centerLng + x * SCALE)%float).

(** [edge.current_flow / edge.capacity] *)
Definition load (current_flow capacity : float) : float :=
  (current_flow / capacity)%float.

(** 3 / 0 is +Infinity, 3 / -0 is -Infinity and 0 / 0 is NaN. *)
Definition quotients_by_zero : bool :=
  (PrimFloat.eqb (load 3 0) infinity
   && PrimFloat.eqb (load 3 (-0)) neg_infinity
   && is_nan (load 0 0))%bool.

Definition one : float := 1%float.

(** Componentwise difference and sum of positions. *)
Definition pos_sub (p q : float * float) : float * float :=
  ((fst p - fst q)%float, (snd p - snd q)%float).

Definition pos_add (p q : float * float) : float * float :=
  ((fst p + fst q)%float, (snd p + snd q)%float).

(** The two sides of the additivity identity of the specification. *)
Definition additivity_lhs (x1 y1 x2 y2 : float) : float * float :=
  pos_sub (getLatLng (x1 + x2) (y1 + y2)) (getLatLng 0 0).

Definition additivity_rhs (x1 y1 x2 y2 : float) : float * float :=
  pos_add (pos_sub (getLatLng x1 y1) (getLatLng 0 0))
          (pos_sub (getLatLng x2 y2) (getLatLng 0 0)).

(** The two sides are the same numbers. *)
Definition additive_at (x1 y1 x2 y2 : float) : bool :=
  (PrimFloat.eqb (fst (additivity_lhs x1 y1 x2 y2))
                 (fst (additivity_rhs x1 y1 x2 y2))
   && PrimFloat.eqb (snd (additivity_lhs x1 y1 x2 y2))
                    (snd (additivity_rhs x1 y1 x2 y2)))%bool.

(** The two sides are within [eps] of each other in both coordinates. *)
Definition additive_within (eps : float) (x1 y1 x2 y2 : float) : bool :=
  (PrimFloat.leb
     (PrimFloat.abs (fst (additivity_lhs x1 y1 x2 y2)
                     - fst (additivity_rhs x1 y1 x2 y2))) eps
   && PrimFloat.leb
        (PrimFloat.abs (snd (additivity_lhs x1 y1 x2 y2)
                        - snd (additivity_rhs x1 y1 x2 y2))) eps)%bool.

(** The tolerance 2^-46, about 1.4e-14 degrees. *)
Definition tolerance : float := 0x1p-46%float.

(** A small natural number as a float. *)
Fixpoint of_nat (k : nat) : float :=
  match k with
  | O => 0%float
  | S j => (of_nat j + 1)%float
  end.

(** The integer grid coordinates from [-n] to [n]. *)
Definition grid (n : nat) : list float :=
  (List.map of_nat (List.seq 0 (S n))
   ++ List.map (fun k => PrimFloat.opp (of_nat k)) (List.seq 1 n))%list.

(** A property of four grid coordinates holds all over the grid. *)
Definition on_grid (n : nat) (P : float -> float -> float -> float -> bool)
  : bool :=
  forallb (fun x1 => forallb (fun y1 => forallb (fun x2 =>
    forallb (fun y2 => P x1 y1 x2 y2) (grid n)) (grid n)) (grid n)) (grid n).

End Binary64.

(* ------------------------------------------------------------------ *)
(** ** Sample data *)

Module Samples.

(** A graph with one node "a" at (1, 2), and a route through "a" and
    the unknown id "zz". *)
Definition one_node_graph : Graph :=
  mkGraph [mkNode "a" (of_Z 1) (of_Z 2)] [].

Definition route_a_zz : RouteData :=
  mkRouteData (Some ["a"; "zz"]) None None None.

(** Nodes "a" and "b" joined by one edge of capacity 0 that carries a
    flow of 3. *)
Definition zero_capacity_graph : Graph :=
  mkGraph [mkNode "a" (of_Z 0) (of_Z 0); mkNode "b" (of_Z 1) (of_Z 0)]
          [mkEdge "a" "b" (of_Z 0) (of_Z 3)].

(** A /route response body with [stats] only: neither [path] nor
    [geometry]. *)
Definition stats_only : RouteData :=
  mkRouteData None None None
    (Some (mkCostVector (Some (of_Z 10)) (Some (of_Z 6)) (Some (of_Z 2))
                        (Some (of_Z 1)) (Some (of_Z 1)) (Some (Fin (2 # 10))))).

Definition place_a : ControlPanel.Location :=
  ControlPanel.mkLocation "Empire State" (Fin (4075 # 100)) (Fin (- (7399 # 100))).

Definition place_b : ControlPanel.Location :=
  ControlPanel.mkLocation "Times Square" (Fin (4076 # 100)) (Fin (- (7398 # 100))).

(** Two route results that differ. *)
Definition route_one : RouteData :=
  mkRouteData None
    (Some [Some (mkLatLng (Some (Fin (5150 # 100))) (Some (Fin (- (9 # 100)))))])
    None (Some empty_stats).


(** The failure of scenario C: status 500 with a detail. *)
Definition no_path_found : Http.RequestError :=
  Http.mkRequestError
    (Some (Http.mkErrorResponse 500
             (Some (Http.mkErrorBody (Some "no path found")))))
    "Request failed with status code 500".

(** A transport failure: no response at all. *)
Definition network_error : Http.RequestError :=
  Http.mkRequestError None "Network Error".

(** The coordinate panel after both places are chosen and the button
    is clicked once: request 1 is awaited. *)
Definition panel_waiting : ControlPanel.State :=
  ControlPanel.run
    [ControlPanel.SelectStart place_a; ControlPanel.SelectEnd place_b;
     ControlPanel.Click]
    (ControlPanel.init (App.setRouteData (Some route_one) App.init)).

(** The legacy panel after both addresses are typed, the button is
    clicked and both geocode calls have answered: the route request of
    scenario A is awaited. *)
Definition legacy_waiting : LegacyControlPanel.State :=
  LegacyControlPanel.run
    [LegacyControlPanel.TypeStart "Wall St";
     LegacyControlPanel.TypeEnd "Broadway";
     LegacyControlPanel.ChangeTime 8;
     LegacyControlPanel.Click;
     LegacyControlPanel.Settle 1 (LegacyControlPanel.Geocoded (Some "5"));
     LegacyControlPanel.Settle 1 (LegacyControlPanel.Geocoded (Some "12"))]
    (LegacyControlPanel.init (App.setRouteData (Some route_one) App.init)).

End Samples.

(* ------------------------------------------------------------------ *)
(** ** vite.config.js: the development proxy *)

Module Vite.

Definition backend : string := "http://localhost:8000".

(** [rewrite: (path) => path.replace(/^\/api/, '')] *)
Definition rewrite (path : string) : string :=
  if String.prefix "/api" path
  then substring 4 (String.length path - 4) path
  else path.

Record ProxyRule : Type := mkProxyRule {
  context : string;
  target : string;
  changeOrigin : bool;
  rule_rewrite : option (string -> string)
}.

(** [server.proxy], in the order of its keys. *)
Definition proxy : list ProxyRule :=
  [ mkProxyRule "/api" backend true (Some rewrite);
    mkProxyRule "/route" backend false None;
    mkProxyRule "/traffic" backend false None;
    mkProxyRule "/network" backend false None;
    mkProxyRule "/geocode" backend false None ].

(** The dev server hands a request to the first rule whose key the url
    starts with, after applying the rule's [rewrite] to [req.url];
    [None] is a url that is not proxied.  The result is the target and
    the [req.url] handed to the proxy.  The proxy then joins it to the
    path of the target, which leaves the urls of api.js, a single slash
    followed by a name, as they are. *)
Definition forward (url : string) : option (string * string) :=
  match List.find (fun r => String.prefix (context r) url) proxy with
  | Some r =>
      Some (target r,
            match rule_rewrite r with
            | Some f => f url
            | None => url
            end)
  | None => None
  end.

End Vite.

(* ------------------------------------------------------------------ *)
(** ** api.js: the calls of the HTTP client *)

Module Api.

Inductive method : Type := GET | POST.

Section Calls.

(** The entries of [updates] are passed through as they are. *)
Variable Update : Type.

Inductive body : Type :=
| NoBody
| RouteBody (start_node end_node : string) (time_hour : Z)
| TrafficBody (updates : list Update)
| GeocodeBody (address : string).

Record Request : Type := mkRequest {
  req_method : method;
  url : string;
  req_body : body
}.

(** The text of an integer in a template literal. *)
Definition int_text (z : Z) : string :=
  if (z <? 0)%Z then "-" ++ digits_of (- z) else digits_of z.

(** [api.get('/network/stats')] *)
Definition getNetworkStats : Request :=
  mkRequest GET "/network/stats" NoBody.

(** [computeRoute = (startNode, endNode, timeHour = 8) => api.post('/route', ...)] *)
Definition computeRoute (startNode endNode : string) (timeHour : option Z)
  : Request :=
  let timeHour := match timeHour with Some t => t | None => 8%Z end in
  mkRequest POST "/route" (RouteBody startNode endNode timeHour).

(** [updateTraffic = (updates) => api.post('/traffic/update', { updates })] *)
Definition updateTraffic (updates : list Update) : Request :=
  mkRequest POST "/traffic/update" (TrafficBody updates).

(** [geocode = (address) => api.post('/geocode', { address })] *)
Definition geocode (address : string) : Request :=
  mkRequest POST "/geocode" (GeocodeBody address).

(** [initGrid = (rows, cols) =>
      api.post(`/network/init-grid?rows=${rows}&cols=${cols}`)] *)
Definition initGrid (rows cols : Z) : Request :=
  mkRequest POST
    ("/network/init-grid?rows=" ++ int_text rows ++ "&cols=" ++ int_text cols)
    NoBody.

(** [api.get('/network/layout')] of the polling App. *)
Definition getLayout : Request :=
  mkRequest GET "/network/layout" NoBody.

(** A request some call of the client makes. *)
Inductive made : Request -> Prop :=
| made_stats : made getNetworkStats
| made_route : forall a b t, made (computeRoute a b t)
| made_traffic : forall u, made (updateTraffic u)
| made_geocode : forall a, made (geocode a)
| made_grid : forall r c, made (initGrid r c)
| made_layout : made getLayout.

End Calls.

End Api.

(* ------------------------------------------------------------------ *)
(** ** PlacesAutocomplete (inside MapComponent.jsx, coordinate variant) *)

Module Places.

Record Suggestion : Type := mkSuggestion {
  place_id : string;
  description : string
}.

(** How the awaited [getGeocode({ address })] settles; a result is the
    [lat()] and [lng()] of its [geometry.location]. *)
Inductive settled : Type :=
| GeocodeOk (results : list (num * num))
| GeocodeFailed (err : string).

(** What the component reads of [usePlacesAutocomplete], the slot of the
    parent that [setSelected] writes, the console, and the suspended
    calls of [handleSelect] with the address of their closure. *)
Record State : Type := mkState {
  ready : bool;
  value : string;
  status : string;
  data : list Suggestion;
  selected : option ControlPanel.Location;
  console : list string;
  in_flight : list (nat * string);
  issued : nat
}.

Definition init : State := mkState true "" "" [] None [] [] 0.

(** [setValue(text, shouldFetch)] of the hook, as far as the value goes. *)
Definition setValue (text : string) (s : State) : State :=
  mkState (ready s) text (status s) (data s) (selected s) (console s)
          (in_flight s) (issued s).

(** [clearSuggestions()] of the hook. *)
Definition clearSuggestions (s : State) : State :=
  mkState (ready s) (value s) "" [] (selected s) (console s)
          (in_flight s) (issued s).

(** The hook delivers suggestions for the typed text. *)
Definition suggestions_arrive (st : string) (d : list Suggestion) (s : State)
  : State :=
  mkState (ready s) (value s) st d (selected s) (console s)
          (in_flight s) (issued s).

Definition setSelected (l : ControlPanel.Location) (s : State) : State :=
  mkState (ready s) (value s) (status s) (data s) (Some l) (console s)
          (in_flight s) (issued s).

Definition console_log (line : string) (s : State) : State :=
  mkState (ready s) (value s) (status s) (data s) (selected s)
          (line :: console s) (in_flight s) (issued s).

Definition await (address : string) (s : State) : State :=
  mkState (ready s) (value s) (status s) (data s) (selected s) (console s)
          (in_flight s ++ [(S (issued s), address)]) (S (issued s)).

Definition is_call (n : nat) (r : nat * string) : bool := Nat.eqb (fst r) n.

Definition awaited (n : nat) (s : State) : option string :=
  option_map snd (List.find (is_call n) (in_flight s)).

Definition forget (n : nat) (s : State) : State :=
  mkState (ready s) (value s) (status s) (data s) (selected s) (console s)
          (filter (fun r => negb (is_call n r)) (in_flight s)) (issued s).

(** The list shown under the input: [status === "OK" && data.map(...)]. *)
Definition shown (s : State) : list Suggestion :=
  if String.eqb (status s) "OK" then data s else [].

(** [handleSelect(address)], to its first [await]. *)
Definition handleSelect (address : string) (s : State) : State :=
  let s := setValue address s in
  let s := clearSuggestions s in
  await address s.

(** [handleSelect] number [n], from the [await] on: [getLatLng] of the
    first result (a TypeError when there is none), [setSelected], and
    the [catch]. *)
Definition handleSelect_resume (n : nat) (r : settled) (s : State) : State :=
  match awaited n s with
  | None => s
  | Some address =>
      let s := forget n s in
      match r with
      | GeocodeOk ((la, ln) :: _) =>
          setSelected (ControlPanel.mkLocation address la ln) s
      | GeocodeOk [] => console_log "Error:  TypeError" s
      | GeocodeFailed err => console_log ("Error:  " ++ err) s
      end
  end.

Inductive event : Type :=
| Type_ (text : string)                         (* onChange of the input *)
| Suggest (st : string) (d : list Suggestion)   (* suggestions arrive *)
| Pick (address : string)                       (* click on a suggestion *)
| Settle (n : nat) (r : settled).

Definition step (s : State) (e : event) : State :=
  match e with
  | Type_ text => setValue text s
  | Suggest st d => suggestions_arrive st d s
  | Pick address => handleSelect address s
  | Settle n r => handleSelect_resume n r s
  end.

Definition run (es : list event) (s : State) : State :=
  fold_left step es s.

End Places.

(* ------------------------------------------------------------------ *)
(** ** Vocabulary of the further properties *)

Module Vocabulary.

(** A number that is neither NaN nor an infinity. *)
Definition finite (a : num) : bool :=
  match a with
  | Fin _ => true
  | _ => false
  end.

Definition finite_node (n : Node) : bool := finite (x n) && finite (y n).

(** The running bounds of [ChangeView]: a minimum is +Infinity or
    finite, a maximum is -Infinity or finite, and a node is covered when
    its coordinates lie between them. *)
Definition low (a : num) : bool :=
  match a with
  | PosInf | Fin _ => true
  | _ => false
  end.

Definition high (a : num) : bool :=
  match a with
  | NegInf | Fin _ => true
  | _ => false
  end.

Definition bounds_ok (acc : num * num * num * num) : bool :=
  let '(minX, maxX, minY, maxY) := acc in
  low minX && high maxX && low minY && high maxY.

Definition covers (acc : num * num * num * num) (n : Node) : bool :=
  let '(minX, maxX, minY, maxY) := acc in
  leb minX (x n) && leb (x n) maxX && leb minY (y n) && leb (y n) maxY.

(** A position inside the box of two corners. *)
Definition in_box (box : Leaflet.Position * Leaflet.Position)
  (p : Leaflet.Position) : Prop :=
  leb (fst (fst box)) (fst p) = true /\ leb (fst p) (fst (snd box)) = true
  /\ leb (snd (fst box)) (snd p) = true /\ leb (snd p) (snd (snd box)) = true.

(** The usable points of the geometry of a route result: the entries
    with a numeric [lat] and [lng]. *)
Definition route_points (routeData : option RouteData) : list (num * num) :=
  match routeData with
  | Some rd =>
      match geometry rd with
      | Some g => GoogleMap.valid_points g
      | None => []
      end
  | None => []
  end.

(** The part of a text after its first ".", if it has one. *)
Fixpoint fraction_of (s : string) : option string :=
  match s with
  | EmptyString => None
  | String c rest =>
      if Ascii.eqb c "."%char then Some rest else fraction_of rest
  end.

(** The number of digits a displayed text has after its point. *)
Definition decimals (text : option string) : option nat :=
  match text with
  | Some s => option_map String.length (fraction_of s)
  | None => None
  end.

(** A finite value below 10^21 in absolute value, where [toFixed] uses
    the fixed notation. *)
Definition displayable (q : Q) : Prop :=
  (Qabs q < inject_Z (10 ^ 21))%Q.

(** The legacy panel analogue of [ControlPanel.serialized]. *)
Definition legacy_serialized (s : LegacyControlPanel.State) : Prop :=
  match LegacyControlPanel.in_flight s with
  | [] => LegacyControlPanel.loading s = false
  | [(n, _)] =>
      LegacyControlPanel.loading s = true /\ n = LegacyControlPanel.issued s
  | _ => False
  end.

Definition legacy_ui_event (e : LegacyControlPanel.event) : bool :=
  match e with
  | LegacyControlPanel.Call => false
  | _ => true
  end.

(** The user edits the form of the legacy panel. *)
Definition legacy_edit (e : LegacyControlPanel.event) : bool :=
  match e with
  | LegacyControlPanel.TypeStart _
  | LegacyControlPanel.TypeEnd _
  | LegacyControlPanel.ChangeTime _ => true
  | _ => false
  end.

(** The user edits the form of the coordinate panel. *)
Definition edit (e : ControlPanel.event) : bool :=
  match e with
  | ControlPanel.SelectStart _
  | ControlPanel.SelectEnd _
  | ControlPanel.ChangeTime _ => true
  | _ => false
  end.

(** Nothing has been asked, shown or changed by the coordinate panel. *)
Definition untouched (a : App.State) (s : ControlPanel.State) : Prop :=
  ControlPanel.in_flight s = [] /\ ControlPanel.loading s = false
  /\ ControlPanel.alerts s = [] /\ ControlPanel.issued s = 0%nat
  /\ ControlPanel.app s = a.


(** A travel time, in hours, whose minutes stay below 10^21 after the
    rounded multiplication by 60. *)
Definition hours_displayable (h : Q) : Prop :=
  (Qabs h < inject_Z (10 ^ 19))%Q.

(** Events that choose a start location. *)
Definition selects_start (e : ControlPanel.event) : bool :=
  match e with
  | ControlPanel.SelectStart _ => true
  | _ => false
  end.

Definition selects_end (e : ControlPanel.event) : bool :=
  match e with
  | ControlPanel.SelectEnd _ => true
  | _ => false
  end.

End Vocabulary.

(* ================================================================== *)
(** * Properties *)

Import Samples.

(** ** Arithmetic of [num] on finite values *)

Section NumFacts.

Local Open Scope Q_scope.

Lemma ltb_fin (p q : Q) : ltb (Fin p) (Fin q) = true <-> p < q.
Proof.
  unfold ltb. rewrite Qlt_alt. destruct (p ?= q); split; congruence.
Qed.

Lemma ltb_fin_false (p q : Q) : ltb (Fin p) (Fin q) = false <-> q <= p.
Proof.
  unfold ltb. rewrite Qle_alt, <- (Qcompare_antisym p q).
  destruct (p ?= q); simpl; split; congruence.
Qed.

Lemma leb_fin (p q : Q) : leb (Fin p) (Fin q) = true <-> p <= q.
Proof.
  unfold leb. rewrite Qle_alt. destruct (p ?= q); split; congruence.
Qed.

Lemma max_fin (p q : Q) :
  exists r, max (Fin p) (Fin q) = Fin r /\ r == Qmax p q.
Proof.
  unfold max. change (is_nan (Fin p) || is_nan (Fin q))%bool with false.
  cbv iota. destruct (ltb (Fin p) (Fin q)) eqn:E.
  - exists q. split; [reflexivity|]. apply ltb_fin in E.
    symmetry. apply Q.max_r, Qlt_le_weak, E.
  - exists p. split; [reflexivity|]. apply ltb_fin_false in E.
    symmetry. apply Q.max_l, E.
Qed.

Lemma min_fin (p q : Q) :
  exists r, min (Fin p) (Fin q) = Fin r /\ r == Qmin p q.
Proof.
  unfold min. change (is_nan (Fin p) || is_nan (Fin q))%bool with false.
  cbv iota. destruct (ltb (Fin q) (Fin p)) eqn:E.
  - exists q. split; [reflexivity|]. apply ltb_fin in E.
    symmetry. apply Q.min_r, Qlt_le_weak, E.
  - exists p. split; [reflexivity|]. apply ltb_fin_false in E.
    symmetry. apply Q.min_l, E.
Qed.

Lemma div_fin_pos (p q : Q) : 0 < q -> div (Fin p) (Fin q) = Fin (p / q).
Proof.
  intros H. unfold div. apply Qgt_alt in H. rewrite H. reflexivity.
Qed.

Lemma clamp_bounds (x : Q) : 5 <= Qmin 100 (Qmax 5 x) <= 100.
Proof.
  split.
  - apply Q.min_glb; [discriminate | apply Q.le_max_l].
  - apply Q.le_min_l.
Qed.

End NumFacts.

(** ** StatsPanel: cost bars *)

Section CostBars.

Import StatsPanel.
Local Open Scope Q_scope.

(** With a positive total the helper is the clamp of the percentage. *)
Lemma getPercent_pos (t v : Q) :
  0 < t ->
  exists r, getPercent (Fin t) (Fin v) = Fin r
            /\ r == Qmin 100 (Qmax 5 (v / t * 100)).
Proof.
  intros Ht. unfold getPercent. rewrite (div_fin_pos v t Ht).
  unfold of_Z. simpl mul.
  destruct (max_fin (inject_Z 5) (v / t * inject_Z 100)) as [m [Hm Em]].
  rewrite Hm.
  destruct (min_fin (inject_Z 100) m) as [r [Hr Er]].
  exists r. split; [exact Hr|]. rewrite Er, Em. reflexivity.
Qed.

(** With a zero total the helper sees an infinity or NaN. *)
Lemma getPercent_zero_total (v : Q) :
  getPercent (Fin 0) (Fin v) =
  match v ?= 0 with
  | Gt => of_Z 100
  | Lt => of_Z 5
  | Eq => NaN
  end.
Proof.
  unfold getPercent, div. change (0 ?= 0) with Eq. cbv iota.
  destruct (v ?= 0); reflexivity.
Qed.

(** [CostBar] does not go through [getPercent]: its width is the raw
    percentage. *)
Lemma CostBar_width_raw (label color : string) (value total : num) :
  bar_width (CostBar label value total color)
  = mul (div value total) (of_Z 100).
Proof. reflexivity. Qed.

Example CostBar_width_150 :
  same (bar_width (CostBar "Time" (of_Z 150) (of_Z 100) "#3b82f6")) (of_Z 150).
Proof. reflexivity. Qed.

Example CostBar_width_zero_total :
  bar_width (CostBar "Time" (of_Z 0) (of_Z 0) "#3b82f6") = NaN.
Proof. reflexivity. Qed.

(** C1, counterexample.  The panel is rendered for a cost vector whose
    [total_cost] is missing (the destructuring default makes it 0) or
    is 0, with a time cost of 6: the percentage of the Time bar is
    +Infinity and that of the other bars is NaN, not 0 and not in
    [5,100]. *)
Lemma bars_zero_total_counterexample :
  option_map (fun v => List.map bar_width (bars v))
    (StatsPanel (Some (mkRouteData None None None
       (Some (mkCostVector None (Some (of_Z 6)) None None None None)))))
  = Some [PosInf; NaN; NaN; NaN]
  /\ option_map (fun v => List.map bar_width (bars v))
       (StatsPanel (Some (mkRouteData None None None
          (Some (mkCostVector (Some (of_Z 0)) (Some (of_Z 6)) (Some (of_Z 0))
                              (Some (of_Z 0)) (Some (of_Z 0)) None)))))
     = Some [PosInf; NaN; NaN; NaN]
  /\ ~ same PosInf (of_Z 0) /\ ~ same NaN (of_Z 0)
  /\ ~ between 5 100 PosInf /\ ~ between 5 100 NaN.
Proof.
  repeat split; try reflexivity; simpl; tauto.
Qed.

(** C1, as amended.  [getPercent] is the clamp [min(100, max(5, p))]
    of the percentage [p = (v / total) * 100] that [CostBar] computes;
    for a finite component and a finite positive total it lies in
    [5,100], and the four values of a cost vector sum to at most 400.
    There is no fallback for a zero total: the percentage is then an
    infinity or NaN, and [getPercent] is 100, 5 or NaN, never 0. *)
Theorem getPercent_clamps_positive_total
  (l col : string) (t a b c d : Q) (Ht : 0 < t) :
  (forall total v : num,
      getPercent total v
      = min (of_Z 100) (max (of_Z 5) (bar_width (CostBar l v total col))))
  /\ between 5 100 (getPercent (Fin t) (Fin a))
  /\ between 20 400
       (add (add (add (getPercent (Fin t) (Fin a))
                      (getPercent (Fin t) (Fin b)))
                 (getPercent (Fin t) (Fin c)))
            (getPercent (Fin t) (Fin d)))
  /\ Vocabulary.finite (bar_width (CostBar l (Fin a) (Fin 0) col)) = false
  /\ (getPercent (Fin 0) (Fin a) = of_Z 100
      \/ getPercent (Fin 0) (Fin a) = of_Z 5
      \/ getPercent (Fin 0) (Fin a) = NaN)
  /\ ~ same (getPercent (Fin 0) (Fin a)) (Fin 0).
Proof.
  split; [reflexivity|].
  destruct (getPercent_pos t a Ht) as [ra [Ha Ea]].
  destruct (getPercent_pos t b Ht) as [rb [Hb Eb]].
  destruct (getPercent_pos t c Ht) as [rc [Hc Ec]].
  destruct (getPercent_pos t d Ht) as [rd [Hd Ed]].
  pose proof (clamp_bounds (a / t * 100)) as Ba.
  pose proof (clamp_bounds (b / t * 100)) as Bb.
  pose proof (clamp_bounds (c / t * 100)) as Bc.
  pose proof (clamp_bounds (d / t * 100)) as Bd.
  rewrite <- Ea in Ba. rewrite <- Eb in Bb.
  rewrite <- Ec in Bc. rewrite <- Ed in Bd.
  rewrite Ha, Hb, Hc, Hd. cbn [between add].
  split; [exact Ba|]. split; [split; lra|].
  rewrite getPercent_zero_total.
  unfold CostBar. cbn [bar_width]. unfold div.
  change (0 ?= 0) with Eq. cbv iota.
  destruct (a ?= 0).
  - split; [reflexivity|]. split; [tauto|]. simpl. tauto.
  - split; [reflexivity|]. split; [tauto|]. simpl. discriminate.
  - split; [reflexivity|]. split; [tauto|]. simpl. discriminate.
Qed.

(** The theorem at total 10 and components 6, 2, 1, 1. *)
Lemma getPercent_clamps_positive_total_witness :
  0 < 10
  /\ between 5 100 (getPercent (Fin 10) (Fin 6))
  /\ between 20 400
       (add (add (add (getPercent (Fin 10) (Fin 6))
                      (getPercent (Fin 10) (Fin 2)))
                 (getPercent (Fin 10) (Fin 1)))
            (getPercent (Fin 10) (Fin 1))).
Proof.
  assert (H : 0 < 10) by reflexivity.
  destruct (getPercent_clamps_positive_total "Time" "#3b82f6" 10 6 2 1 1 H)
    as [_ [H1 [H2 _]]].
  split; [exact H|]. split; assumption.
Defined.

(** C10.  The panel renders nothing when [data] or its [stats] is
    absent.  With a [stats] object it renders the two cards and the four
    bars with every absent field read as the number 0: the same view as
    for the cost vector with 0 written in the absent fields; an absent
    [travel_time_hours] is displayed as "0.0" (min), and with no field
    at all the cards show "0.0" and "0.00" and every bar "0.00". *)
Theorem StatsPanel_tolerates_missing_fields
  (pth : option (list NodeId)) (geo : option (list (option LatLng)))
  (pn : option (list NodeId)) (st : CostVector) :
  StatsPanel None = None
  /\ StatsPanel (Some (mkRouteData pth geo pn None)) = None
  /\ StatsPanel (Some (mkRouteData pth geo pn (Some st)))
     = StatsPanel (Some (mkRouteData pth geo pn (Some (with_zeros st))))
  /\ StatsPanel (Some (mkRouteData pth geo pn (Some st)))
     = Some (mkStatsView
               (toFixed 1 (mul (or_zero (travel_time_hours st)) (of_Z 60)))
               (toFixed 2 (or_zero (total_cost st)))
               [ expected_bar "Time" (time_cost st) (total_cost st) "#3b82f6";
                 expected_bar "Congestion" (congestion_penalty st)
                              (total_cost st) "#f59e0b";
                 expected_bar "Emission" (emission_cost st) (total_cost st)
                              "#10b981";
                 expected_bar "Social" (social_cost st) (total_cost st)
                              "#8b5cf6" ]
               (match pn with
                | Some nil | None => GoogleMapsRoute
                | Some l => PathNodes (List.length l)
                end))
  /\ (forall tc ti cp em so : option num,
        exists v,
          StatsPanel (Some (mkRouteData pth geo pn
                     (Some (mkCostVector tc ti cp em so None)))) = Some v
          /\ travel_time_text v = Some "0.0"%string)
  /\ (exists v,
        StatsPanel (Some (mkRouteData pth geo pn (Some empty_stats))) = Some v
        /\ travel_time_text v = Some "0.0"%string
        /\ total_cost_text v = Some "0.00"%string
        /\ List.map bar_label (bars v)
           = ["Time"; "Congestion"; "Emission"; "Social"]%string
        /\ List.map bar_value_text (bars v)
           = [Some "0.00"; Some "0.00"; Some "0.00"; Some "0.00"]%string).
Proof.
  split; [reflexivity|]. split; [reflexivity|].
  split.
  { destruct st as [[tc|] [ti|] [cp|] [em|] [so|] [tt|]]; reflexivity. }
  split.
  { destruct st as [tc ti cp em so tt]. destruct pn as [[|i l]|]; reflexivity. }
  split.
  - intros. eexists. split; reflexivity.
  - eexists. repeat split.
Qed.

Example StatsPanel_scenario_A :
  option_map (fun v => (travel_time_text v, List.map bar_width (bars v)))
    (StatsPanel (Some (mkRouteData (Some ["5"; "7"; "12"]%string) None None
       (Some (mkCostVector (Some (of_Z 10)) (Some (of_Z 6)) (Some (of_Z 2))
                           (Some (of_Z 1)) (Some (of_Z 1))
                           (Some (Fin (2 # 10))))))))
  = Some (Some "12.0"%string,
          [Fin (600 # 10); Fin (200 # 10); Fin (100 # 10); Fin (100 # 10)]).
Proof. reflexivity. Qed.

End CostBars.

(** ** MapComponent, Leaflet variant *)

Section LeafletMap.

Import Leaflet.
Local Open Scope Q_scope.

(** C8, counterexample.  In the arithmetic of the program the two sides
    of the additivity identity differ at x1 = y1 = x2 = y2 = 1 (in the
    longitude 0.009999999999999995 against 0.010000000000000009). *)
Lemma getLatLng_additivity_counterexample :
  Binary64.additive_at Binary64.one Binary64.one Binary64.one Binary64.one
  = false
  /\ PrimFloat.eqb
       (snd (Binary64.additivity_lhs Binary64.one Binary64.one
                                     Binary64.one Binary64.one))
       (snd (Binary64.additivity_rhs Binary64.one Binary64.one
                                     Binary64.one Binary64.one))
     = false.
Proof. split; reflexivity. Qed.

(** C8, as amended.  [getLatLng] computes
    [(centerLat + y*SCALE, centerLng + x*SCALE)] with the fixed centre
    (51.505, -0.09) and SCALE = 0.005.  In exact arithmetic this map is
    affine: its linear part is additive for all finite x1, y1, x2, y2.
    In the binary64 arithmetic of the program the two sides of the
    identity agree up to rounding only: within 2^-46 on every integer
    grid point from -10 to 10. *)
Theorem getLatLng_affine (x1 y1 x2 y2 : Q) :
  (forall fx fy : PrimFloat.float,
      Binary64.getLatLng fx fy
      = (PrimFloat.add Binary64.centerLat (PrimFloat.mul fy Binary64.SCALE),
         PrimFloat.add Binary64.centerLng (PrimFloat.mul fx Binary64.SCALE)))
  /\ (forall a b : num,
        getLatLng a b
        = (add centerLat (mul b SCALE), add centerLng (mul a SCALE)))
  /\ pos_same
       (pos_sub (getLatLng (Fin (x1 + x2)) (Fin (y1 + y2)))
                (getLatLng (Fin 0) (Fin 0)))
       (pos_add (pos_sub (getLatLng (Fin x1) (Fin y1))
                         (getLatLng (Fin 0) (Fin 0)))
                (pos_sub (getLatLng (Fin x2) (Fin y2))
                         (getLatLng (Fin 0) (Fin 0))))
  /\ Binary64.on_grid 10 (Binary64.additive_within Binary64.tolerance) = true.
Proof.
  split; [reflexivity|]. split; [reflexivity|]. split.
  - unfold pos_same, pos_sub, pos_add, getLatLng, centerLat, centerLng, SCALE.
    simpl. split; ring.
  - vm_compute. reflexivity.
Qed.

Lemma gtb_false_leb (l : num) (q : Q) :
  is_nan l = false -> gtb l (Fin q) = false -> leb l (Fin q) = true.
Proof.
  destruct l as [| | |p]; simpl; try discriminate; try reflexivity.
  intros _. unfold gtb, ltb, leb.
  rewrite <- (Qcompare_antisym p q). destruct (p ?= q); simpl; congruence.
Qed.

Lemma gtb_nan (a : num) : gtb NaN a = false.
Proof. destruct a; reflexivity. Qed.

(** Comparisons do not tell equal rationals apart. *)
Lemma ltb_same (a a' b : num) : same a a' -> ltb a b = ltb a' b.
Proof.
  destruct a, a'; simpl; try contradiction; try reflexivity.
  intros E. destruct b; try reflexivity. simpl. rewrite E. reflexivity.
Qed.

Lemma ltb_same_r (a a' b : num) : same a a' -> ltb b a = ltb b a'.
Proof.
  destruct a, a'; simpl; try contradiction; try reflexivity.
  intros E. destruct b; try reflexivity. simpl. rewrite E. reflexivity.
Qed.

Lemma leb_same (a a' b : num) : same a a' -> leb a b = leb a' b.
Proof.
  destruct a, a'; simpl; try contradiction; try reflexivity.
  intros E. destruct b; try reflexivity. simpl. rewrite E. reflexivity.
Qed.

Lemma style_of_load_same (l l' : num) :
  same l l' -> style_of_load l = style_of_load l'.
Proof.
  intros E. unfold style_of_load, gtb.
  rewrite (ltb_same_r l l' _ E), (ltb_same_r l l' (Fin (5 # 10)) E),
    (leb_same l l' _ E).
  reflexivity.
Qed.

Lemma render_edge_style (g : Graph) (e : Edge) :
  (color (pathOptions (render_edge g e)),
   weight (pathOptions (render_edge g e)))
  = style_of_load (load e)
  /\ opacity (pathOptions (render_edge g e)) = Fin (8 # 10)
  /\ dashArray (pathOptions (render_edge g e)) = None.
Proof.
  unfold render_edge, style_of_load, load.
  set (l := div (current_flow e) (capacity e)).
  destruct (gtb l (Fin (8 # 10))) eqn:H8.
  - repeat split.
  - destruct (gtb l (Fin (5 # 10))) eqn:H5.
    + assert (Hn : is_nan l = false).
      { destruct l; try reflexivity. rewrite gtb_nan in H5. discriminate. }
      rewrite (gtb_false_leb l _ Hn H8). repeat split.
    + repeat split.
Qed.

(** C7.  The colour and weight of a drawn edge are the style the policy
    gives to its load [current_flow / capacity]; the positions come from
    the end points and the opacity is fixed, so two edges of equal load
    are drawn in the same style. *)
Theorem edge_style_is_function_of_load (g g' : Graph) (e e' : Edge) :
  (color (pathOptions (render_edge g e)),
   weight (pathOptions (render_edge g e)))
  = style_of_load (load e)
  /\ (same (load e) (load e') ->
      pathOptions (render_edge g e) = pathOptions (render_edge g' e'))
  /\ opacity (pathOptions (render_edge g e)) = Fin (8 # 10)
  /\ dashArray (pathOptions (render_edge g e)) = None.
Proof.
  destruct (render_edge_style g e) as [S [O D]].
  destruct (render_edge_style g' e') as [S' [O' D']].
  split; [exact S|]. split; [|split; assumption].
  intros L.
  assert (E : style_of_load (load e) = style_of_load (load e')).
  { apply style_of_load_same, L. }
  rewrite <- S, <- S' in E.
  destruct (pathOptions (render_edge g e)) as [c w o d].
  destruct (pathOptions (render_edge g' e')) as [c' w' o' d'].
  simpl in *. congruence.
Qed.

Example edge_style_samples :
  List.map style_of_load
    [Fin (9 # 10); Fin (8 # 10); Fin (6 # 10); Fin (5 # 10); Fin 0;
     PosInf; NegInf; NaN]
  = [emphasized; intermediate; intermediate; baseline; baseline;
     emphasized; baseline; baseline].
Proof. reflexivity. Qed.

(** The thresholds of the policy on a finite load. *)
Lemma style_of_load_finite (l : Q) :
  ((8 # 10) < l -> style_of_load (Fin l) = emphasized)
  /\ ((5 # 10) < l -> l <= (8 # 10) -> style_of_load (Fin l) = intermediate)
  /\ (l <= (5 # 10) -> style_of_load (Fin l) = baseline).
Proof.
  unfold style_of_load, gtb.
  repeat split; intros.
  - apply ltb_fin in H. rewrite H. reflexivity.
  - pose proof H0 as L. apply leb_fin in L.
    apply ltb_fin in H. apply ltb_fin_false in H0.
    rewrite H0, H, L. reflexivity.
  - assert (H8 : l <= 8 # 10) by lra.
    apply ltb_fin_false in H, H8. rewrite H8, H. reflexivity.
Qed.

Lemma find_node_spec (g : Graph) (i : NodeId) :
  match find_node g i with
  | Some n => In n (nodes g) /\ id n = i
  | None => forall n, In n (nodes g) -> id n <> i
  end.
Proof.
  unfold find_node. destruct (find _ _) as [n|] eqn:F.
  - apply find_some in F. destruct F as [Hin Heq].
    apply String.eqb_eq in Heq. split; assumption.
  - intros n Hin Heq. pose proof (find_none _ _ F n Hin) as Hn.
    simpl in Hn. apply String.eqb_neq in Hn. contradiction.
Qed.

Lemma find_first (l : list Node) (i : NodeId) (n : Node) :
  List.find (fun m => String.eqb (id m) i) l = Some n ->
  exists before after,
    l = (before ++ n :: after)%list /\ id n = i
    /\ forall m, In m before -> id m <> i.
Proof.
  induction l as [|a l IH]; simpl; [discriminate|].
  destruct (String.eqb (id a) i) eqn:E; intros H.
  - injection H as ->. exists [], l. split; [reflexivity|].
    split; [apply String.eqb_eq, E|]. intros m [].
  - destruct (IH H) as [before [after [-> [Hid Hb]]]].
    exists (a :: before), after. split; [reflexivity|].
    split; [exact Hid|]. intros m [<-|Hm].
    + apply String.eqb_neq, E.
    + apply Hb, Hm.
Qed.

Lemma find_skips (before after : list Node) (n : Node) :
  (forall m, In m before -> id m <> id n) ->
  List.find (fun m => String.eqb (id m) (id n)) (before ++ n :: after)
  = Some n.
Proof.
  induction before as [|a before IH]; intros H; simpl.
  - rewrite String.eqb_refl. reflexivity.
  - assert (E : String.eqb (id a) (id n) = false).
    { apply String.eqb_neq, H. left. reflexivity. }
    rewrite E. apply IH. intros m Hm. apply H. right. exact Hm.
Qed.

(** C4, counterexample.  The id "zz" matches no node of the graph, and
    the route polyline still has a position for it, the point (0, 0):
    the id is not skipped. *)
Lemma unresolvable_id_counterexample :
  find_node one_node_graph "zz" = None
  /\ exists line,
       render_route one_node_graph (Some route_a_zz) = Ok (Some line)
       /\ List.length (positions line) = 2%nat
       /\ nth_error (positions line) 1 = Some (of_Z 0, of_Z 0).
Proof.
  split; [reflexivity|]. eexists. repeat split.
Qed.

(** C4, as amended.  A route given as a list of node ids is drawn with
    exactly one position per id, in order: the projected position of the
    first node of the snapshot with that id (the nodes before it have
    other ids), and the point (0, 0) for an id that matches no node. *)
Theorem route_ids_resolved_or_origin
  (g : Graph) (rd : RouteData) (ids : list NodeId)
  (Hpath : path rd = Some ids) :
  exists line,
    render_route g (Some rd) = Ok (Some line)
    /\ List.length (positions line) = List.length ids
    /\ (forall k i, nth_error ids k = Some i ->
          nth_error (positions line) k = Some (getNodePos g i))
    /\ (forall before n after,
          nodes g = (before ++ n :: after)%list ->
          (forall m, In m before -> id m <> id n) ->
          getNodePos g (id n) = getLatLng (x n) (y n))
    /\ (forall i n, find_node g i = Some n ->
          (exists before after,
             nodes g = (before ++ n :: after)%list
             /\ forall m, In m before -> id m <> i)
          /\ In n (nodes g) /\ id n = i
          /\ getNodePos g i = getLatLng (x n) (y n))
    /\ (forall i, find_node g i = None ->
          (forall n, In n (nodes g) -> id n <> i)
          /\ getNodePos g i = (of_Z 0, of_Z 0)).
Proof.
  unfold render_route. rewrite Hpath. eexists. split; [reflexivity|].
  simpl. split; [apply length_map|]. split.
  { intros k i Hk. rewrite nth_error_map, Hk. reflexivity. }
  split.
  { intros before n after Hn Hb. unfold getNodePos, find_node.
    rewrite Hn, (find_skips before after n Hb). reflexivity. }
  split.
  - intros i n Hf. pose proof (find_node_spec g i) as S.
    rewrite Hf in S. destruct S as [Hin Hid].
    destruct (find_first (nodes g) i n Hf) as [before [after [E [_ Hb]]]].
    split; [exists before, after; split; assumption|].
    unfold getNodePos. rewrite Hf. auto.
  - intros i Hf. pose proof (find_node_spec g i) as S.
    rewrite Hf in S. unfold getNodePos. rewrite Hf. auto.
Qed.

(** Of two nodes with the same id the first one gives the position. *)
Example first_of_two_same_ids :
  getNodePos (mkGraph [mkNode "a" (of_Z 1) (of_Z 2); mkNode "a" (of_Z 3) (of_Z 4)] [])
             "a"
  = getLatLng (of_Z 1) (of_Z 2).
Proof. reflexivity. Qed.

(** The theorem at the one-node graph and the route "a", "zz". *)
Lemma route_ids_resolved_or_origin_witness :
  exists line,
    render_route one_node_graph (Some route_a_zz) = Ok (Some line)
    /\ List.length (positions line) = 2%nat.
Proof.
  destruct (route_ids_resolved_or_origin one_node_graph route_a_zz
              ["a"; "zz"]%string eq_refl) as [line [H1 [H2 _]]].
  exists line. split; assumption.
Defined.

(** C5, counterexample.  The only edge of the graph has capacity 0; its
    load 3/0 is computed (+Infinity) and the edge is drawn, in the
    emphasized style: it is not skipped. *)
Lemma zero_capacity_edge_counterexample :
  List.map capacity (edges zero_capacity_graph) = [of_Z 0]
  /\ List.map load (edges zero_capacity_graph) = [PosInf]
  /\ List.length (render_edges zero_capacity_graph) = 1%nat
  /\ List.map (fun l => (color (pathOptions l), weight (pathOptions l)))
       (render_edges zero_capacity_graph) = [emphasized].
Proof. repeat split. Qed.

(** C5, as amended.  Every edge of the snapshot is drawn, an edge of
    capacity 0 included: its load, the quotient by zero, is computed and
    is not a finite number but +Infinity, -Infinity or NaN (which one
    depends on the signs of the flow and of the zero); the edge is drawn
    in the emphasized style when the load is +Infinity and in the
    baseline style otherwise. *)
Theorem zero_capacity_edges_are_drawn
  (g : Graph) (e : Edge) (cf : Q)
  (Hin : In e (edges g))
  (Hcap : capacity e = Fin 0)
  (Hflow : current_flow e = Fin cf) :
  List.length (render_edges g) = List.length (edges g)
  /\ In (render_edge g e) (render_edges g)
  /\ (load e = PosInf \/ load e = NegInf \/ load e = NaN)
  /\ (color (pathOptions (render_edge g e)),
      weight (pathOptions (render_edge g e)))
     = match load e with
       | PosInf => emphasized
       | _ => baseline
       end.
Proof.
  split; [apply length_map|].
  split; [apply in_map, Hin|].
  assert (L : load e = PosInf \/ load e = NegInf \/ load e = NaN).
  { unfold load. rewrite Hcap, Hflow. unfold div.
    change (0 ?= 0) with Eq. cbv iota. destruct (cf ?= 0); tauto. }
  split; [exact L|].
  destruct (render_edge_style g e) as [S _].
  rewrite S. destruct L as [-> | [-> | ->]]; reflexivity.
Qed.

(** The theorem at the edge of capacity 0 and flow 3. *)
Lemma zero_capacity_edges_are_drawn_witness :
  List.length (render_edges zero_capacity_graph) = 1%nat
  /\ In (render_edge zero_capacity_graph (mkEdge "a" "b" (of_Z 0) (of_Z 3)))
        (render_edges zero_capacity_graph).
Proof.
  destruct (zero_capacity_edges_are_drawn zero_capacity_graph
              (mkEdge "a" "b" (of_Z 0) (of_Z 3)) 3
              (or_introl eq_refl) eq_refl eq_refl) as [H1 [H2 _]].
  split; assumption.
Defined.

(** In the arithmetic of the program the sign of the zero decides:
    3 / 0 is +Infinity, 3 / -0 is -Infinity, 0 / 0 is NaN. *)
Example quotients_by_zero : Binary64.quotients_by_zero = true.
Proof. reflexivity. Qed.

(** The edge layer of a render that succeeds is [render_edges]. *)
Lemma MapComponent_edge_lines (g : Graph) (rd : option RouteData) (v : MapView) :
  MapComponent g rd = Ok v -> edge_lines v = render_edges g.
Proof.
  unfold MapComponent. destruct (render_route g rd); intros H.
  - injection H as <-. reflexivity.
  - discriminate.
Qed.

End LeafletMap.

(** ** MapComponent on malformed route payloads *)

Section MalformedPayloads.

(** The Google variant draws no route, and does not throw, when the
    geometry is absent, is not an array or is empty. *)
Lemma Google_no_geometry_no_route (g : Graph) (rd : RouteData) :
  geometry rd = None \/ geometry rd = Some [] ->
  GoogleMap.MapComponent g (Some rd)
  = Ok (GoogleMap.mkMapView (GoogleMap.MapBounds (nodes g) (Some rd)) None).
Proof.
  intros [H | H]; unfold GoogleMap.MapComponent, GoogleMap.render_route,
    GoogleMap.route_try; rewrite H; reflexivity.
Qed.

(** The Google variant never throws. *)
Lemma Google_MapComponent_total (g : Graph) (rd : option RouteData) :
  exists v, GoogleMap.MapComponent g rd = Ok v.
Proof. eexists. reflexivity. Qed.

(** The Leaflet variant draws a route polyline without positions for an
    empty path. *)
Lemma Leaflet_empty_path (g : Graph) (rd : RouteData) :
  path rd = Some [] ->
  exists v,
    Leaflet.MapComponent g (Some rd) = Ok v
    /\ option_map Leaflet.positions (Leaflet.route_line v) = Some [].
Proof.
  intros H. unfold Leaflet.MapComponent, Leaflet.render_route.
  rewrite H. eexists. split; reflexivity.
Qed.

(** The Leaflet variant renders exactly when there is no route data or
    its [path] is an array. *)
Lemma Leaflet_MapComponent_renders_iff (g : Graph) (rd : RouteData) :
  (exists v, Leaflet.MapComponent g (Some rd) = Ok v)
  <-> path rd <> None.
Proof.
  unfold Leaflet.MapComponent, Leaflet.render_route.
  destruct (path rd); split.
  - discriminate.
  - intros _. eexists. reflexivity.
  - intros [v H]. discriminate.
  - congruence.
Qed.

(** C2, the failing input.  On a route payload without [geometry] and
    without [path] the Leaflet variant of MapComponent throws during
    render, whatever the graph; the Google variant renders the base map
    without a route on the same payload. *)
Theorem Leaflet_MapComponent_throws_without_path (g : Graph) :
  geometry stats_only = None
  /\ Leaflet.MapComponent g (Some stats_only) = Throw "TypeError"
  /\ GoogleMap.MapComponent g (Some stats_only)
     = Ok (GoogleMap.mkMapView (GoogleMap.MapBounds (nodes g) (Some stats_only))
                               None).
Proof. repeat split. Qed.

End MalformedPayloads.

(** ** App: the layout poll *)

Section LayoutPoll.

Import App.

(** After any sequence of polls the stored graph is the data of the last
    poll that succeeded. *)
Lemma run_polls_graph (ps : list poll) (s : State) :
  graph (run_polls ps s) = last_layout ps (graph s).
Proof.
  revert s. induction ps as [|p ps IH]; intros s; [reflexivity|].
  unfold run_polls, last_layout in *. simpl. rewrite IH.
  destruct p; reflexivity.
Qed.

(** C9.  A failed poll of /network/layout leaves the stored graph (and
    the route) as they were and adds one console line, and so does any
    run of failed polls; a poll that succeeds afterwards makes the
    stored graph the received one, none of the old snapshot is kept. *)
Theorem failed_poll_keeps_graph
  (s : State) (err : string) (errs : list string) (ps : list poll) (g : Graph) :
  graph (fetchGraph_settled (LayoutFailed err) s) = graph s
  /\ routeData (fetchGraph_settled (LayoutFailed err) s) = routeData s
  /\ console (fetchGraph_settled (LayoutFailed err) s)
     = ("Failed to load graph " ++ err)%string :: console s
  /\ graph (run_polls (List.map LayoutFailed errs) s) = graph s
  /\ graph (run_polls [LayoutFailed err; LayoutOk g] s) = g
  /\ graph (run_polls (ps ++ [LayoutOk g]) s) = g
  /\ routeData (run_polls ps s) = routeData s.
Proof.
  split; [reflexivity|]. split; [reflexivity|]. split; [reflexivity|].
  split.
  { rewrite run_polls_graph. generalize (graph s).
    induction errs as [|e errs IH]; intros g0; [reflexivity|apply IH]. }
  split; [reflexivity|]. split.
  { rewrite run_polls_graph. unfold last_layout.
    rewrite fold_left_app. reflexivity. }
  revert s. induction ps as [|p ps IH]; intros s; [reflexivity|].
  unfold run_polls in *. simpl. rewrite IH. destruct p; reflexivity.
Qed.

End LayoutPoll.

(** ** ControlPanel: failed route requests *)

Section RouteErrors.

Import Http.



(** An empty detail counts as absent: [||] falls through to the message. *)
Lemma error_message_empty_detail (err : RequestError) :
  response_detail err = Some ""%string -> error_message err = message err.
Proof.
  unfold error_message. intros ->. reflexivity.
Qed.





(** Scenario C in the legacy panel, and a transport failure. *)
Example scenario_C :
  let t' := LegacyControlPanel.handleRoute_resume 1
              (LegacyControlPanel.Rejected no_path_found) legacy_waiting in
  LegacyControlPanel.alerts t' = ["Error: no path found"%string]
  /\ LegacyControlPanel.loading t' = false
  /\ LegacyControlPanel.status t' = "Error occurred."%string
  /\ App.routeData (LegacyControlPanel.app t') = Some route_one.
Proof. repeat split. Qed.

Example transport_failure :
  ControlPanel.alerts
    (ControlPanel.handleRoute_resume 1 (ControlPanel.Rejected network_error)
       panel_waiting)
  = ["Error: Network Error. Make sure backend is running."%string].
Proof. reflexivity. Qed.

End RouteErrors.

(** ** ControlPanel: overlapping route requests *)

Section OverlappingRequests.

Import ControlPanel.




(** [handleRoute] keeps no token of its own: in a state with two awaited
    requests, which no sequence of user-interface events reaches, the
    response that arrives last would be the one kept. *)
Lemma last_arrival_wins (s : State) (n1 n2 : nat) (d1 d2 : option RouteData) :
  n1 <> n2 -> awaited n2 s = true ->
  App.routeData
    (app (run [Settle n1 (Resolved d1); Settle n2 (Resolved d2)] s)) = d2.
Proof.
  intros Hne H2. simpl.
  assert (K : awaited n2 (handleRoute_resume n1 (Resolved d1) s) = true).
  { unfold handleRoute_resume. destruct (awaited n1 s); [|exact H2].
    unfold awaited in *. simpl.
    induction (in_flight s) as [|r l IH]; [discriminate|].
    simpl in H2. simpl.
    destruct (is_req n2 r) eqn:E2.
    - assert (E1 : is_req n1 r = false).
      { unfold is_req in *. apply Nat.eqb_eq in E2.
        apply Nat.eqb_neq. congruence. }
      rewrite E1. simpl. rewrite E2. reflexivity.
    - simpl in H2. destruct (is_req n1 r); simpl; [|rewrite E2; simpl];
        apply IH, H2. }
  unfold handleRoute_resume at 1. rewrite K. reflexivity.
Qed.







End OverlappingRequests.

(* ================================================================== *)
(** * Further properties *)

(** ** Leaflet map: projection, viewport and graph layers *)

Section LeafletLayers.

Import Leaflet Vocabulary.
Local Open Scope Q_scope.

Lemma leb_fin_refl (q : Q) : leb (Fin q) (Fin q) = true.
Proof. apply leb_fin. apply Qle_refl. Qed.

Lemma lower_step (m v w : num) :
  low m = true -> finite v = true ->
  let m' := if ltb v m then v else m in
  low m' = true /\ leb m' v = true
  /\ (finite w = true -> leb m w = true -> leb m' w = true).
Proof.
  intros Hm Hv. destruct v as [| | |qv]; try discriminate.
  destruct m as [| | |qm]; try discriminate; cbv zeta.
  - simpl. split; [reflexivity|]. split; [apply leb_fin_refl|].
    intros Hw L. destruct w; discriminate.
  - destruct (ltb (Fin qv) (Fin qm)) eqn:E.
    + split; [reflexivity|]. split; [apply leb_fin_refl|].
      intros Hw L. destruct w as [| | |qw]; try discriminate.
      apply ltb_fin in E. apply leb_fin in L. apply leb_fin. lra.
    + split; [reflexivity|]. split; [|tauto].
      apply ltb_fin_false in E. apply leb_fin. exact E.
Qed.

Lemma upper_step (m v w : num) :
  high m = true -> finite v = true ->
  let m' := if gtb v m then v else m in
  high m' = true /\ leb v m' = true
  /\ (finite w = true -> leb w m = true -> leb w m' = true).
Proof.
  intros Hm Hv. destruct v as [| | |qv]; try discriminate.
  destruct m as [| | |qm]; try discriminate; cbv zeta.
  - simpl. split; [reflexivity|]. split; [apply leb_fin_refl|].
    intros Hw L. destruct w; discriminate.
  - unfold gtb. destruct (ltb (Fin qm) (Fin qv)) eqn:E.
    + split; [reflexivity|]. split; [apply leb_fin_refl|].
      intros Hw L. destruct w as [| | |qw]; try discriminate.
      apply ltb_fin in E. apply leb_fin in L. apply leb_fin. lra.
    + split; [reflexivity|]. split; [|tauto].
      apply ltb_fin_false in E. apply leb_fin. exact E.
Qed.

Lemma bounds_step_covers (acc : num * num * num * num) (n : Node) :
  bounds_ok acc = true -> finite_node n = true ->
  bounds_ok (bounds_step acc n) = true
  /\ covers (bounds_step acc n) n = true
  /\ (forall k, finite_node k = true -> covers acc k = true ->
                covers (bounds_step acc n) k = true).
Proof.
  destruct acc as [[[mX MX] mY] MY]. unfold bounds_ok, finite_node.
  intros Hok Hn.
  apply andb_true_iff in Hok. destruct Hok as [Hok HMY].
  apply andb_true_iff in Hok. destruct Hok as [Hok HmY].
  apply andb_true_iff in Hok. destruct Hok as [HmX HMX].
  apply andb_true_iff in Hn. destruct Hn as [Hx Hy].
  unfold bounds_step, covers.
  destruct (lower_step mX (x n) (x n) HmX Hx) as [A1 [A2 _]].
  destruct (upper_step MX (x n) (x n) HMX Hx) as [B1 [B2 _]].
  destruct (lower_step mY (y n) (y n) HmY Hy) as [C1 [C2 _]].
  destruct (upper_step MY (y n) (y n) HMY Hy) as [D1 [D2 _]].
  cbv zeta in *.
  split; [rewrite A1, B1, C1, D1; reflexivity|].
  split; [rewrite A2, B2, C2, D2; reflexivity|].
  intros k Hk Hc.
  apply andb_true_iff in Hk. destruct Hk as [Kx Ky].
  apply andb_true_iff in Hc. destruct Hc as [Hc H4].
  apply andb_true_iff in Hc. destruct Hc as [Hc H3].
  apply andb_true_iff in Hc. destruct Hc as [H1 H2].
  destruct (lower_step mX (x n) (x k) HmX Hx) as [_ [_ A3]].
  destruct (upper_step MX (x n) (x k) HMX Hx) as [_ [_ B3]].
  destruct (lower_step mY (y n) (y k) HmY Hy) as [_ [_ C3]].
  destruct (upper_step MY (y n) (y k) HMY Hy) as [_ [_ D3]].
  cbv zeta in *.
  rewrite (A3 Kx H1), (B3 Kx H2), (C3 Ky H3), (D3 Ky H4). reflexivity.
Qed.

Lemma fold_bounds_covers (ns : list Node) (acc : num * num * num * num) :
  bounds_ok acc = true -> forallb finite_node ns = true ->
  bounds_ok (fold_left bounds_step ns acc) = true
  /\ (forall k, finite_node k = true ->
        covers acc k = true \/ In k ns ->
        covers (fold_left bounds_step ns acc) k = true).
Proof.
  revert acc. induction ns as [|n ns IH]; intros acc Hok Hfin.
  - split; [exact Hok|]. intros k _ [H|[]]. exact H.
  - simpl in Hfin. apply andb_true_iff in Hfin. destruct Hfin as [Hn Hns].
    destruct (bounds_step_covers acc n Hok Hn) as [S1 [S2 S3]].
    destruct (IH (bounds_step acc n) S1 Hns) as [I1 I2].
    simpl. split; [exact I1|].
    intros k Hk [Hc|[->|Hin]]; apply I2; auto.
Qed.

(** X1.  With no node [ChangeView] fits nothing; with nodes at finite
    grid positions it fits the viewport to a box that contains the
    marker of every node. *)
Theorem ChangeView_box_contains_nodes (ns : list Node) (n : Node)
  (Hfin : forallb finite_node ns = true) (Hin : In n ns) :
  ChangeView [] = None
  /\ exists box,
       ChangeView ns = Some box
       /\ in_box box (center (render_node n)).
Proof.
  split; [reflexivity|].
  destruct (fold_bounds_covers ns (PosInf, NegInf, PosInf, NegInf)
              eq_refl Hfin) as [Hok Hcov].
  assert (Hn : finite_node n = true).
  { rewrite forallb_forall in Hfin. apply Hfin, Hin. }
  specialize (Hcov n Hn (or_intror Hin)).
  unfold ChangeView. destruct ns as [|n0 ns']; [destruct Hin|].
  set (l := n0 :: ns') in *. clearbody l.
  destruct (fold_left bounds_step l (PosInf, NegInf, PosInf, NegInf))
    as [[[mX MX] mY] MY].
  eexists. split; [reflexivity|].
  unfold covers in Hcov. unfold bounds_ok in Hok. unfold finite_node in Hn.
  apply andb_true_iff in Hn. destruct Hn as [Hx Hy].
  destruct (x n) as [| | |qx] eqn:Ex; try discriminate.
  destruct (y n) as [| | |qy] eqn:Ey; try discriminate.
  apply andb_true_iff in Hcov. destruct Hcov as [Hcov H4].
  apply andb_true_iff in Hcov. destruct Hcov as [Hcov H3].
  apply andb_true_iff in Hcov. destruct Hcov as [H1 H2].
  destruct mX as [| | |a]; try discriminate.
  destruct MX as [| | |b]; try discriminate.
  destruct mY as [| | |c]; try discriminate.
  destruct MY as [| | |d]; try discriminate.
  apply leb_fin in H1, H2, H3, H4.
  unfold in_box, render_node, getLatLng, centerLat, centerLng, SCALE.
  simpl. rewrite Ex, Ey. simpl.
  repeat split; apply leb_fin; lra.
Qed.

(** The theorem at the two nodes of the sample graph. *)
Lemma ChangeView_box_contains_nodes_witness :
  exists box,
    ChangeView (nodes zero_capacity_graph) = Some box
    /\ in_box box (center (render_node (mkNode "b" (of_Z 1) (of_Z 0)))).
Proof.
  destruct (ChangeView_box_contains_nodes (nodes zero_capacity_graph)
              (mkNode "b" (of_Z 1) (of_Z 0)) eq_refl
              (or_intror (or_introl eq_refl))) as [_ H].
  exact H.
Defined.

Lemma find_unique (l : list Node) (n : Node) :
  NoDup (List.map id l) -> In n l ->
  List.find (fun m => String.eqb (id m) (id n)) l = Some n.
Proof.
  induction l as [|m l IH]; intros Hnd Hin; [destruct Hin|].
  simpl in Hnd. inversion Hnd as [|i l' Hnotin Hnd']; subst.
  simpl. destruct Hin as [->|Hin].
  - rewrite String.eqb_refl. reflexivity.
  - destruct (String.eqb (id m) (id n)) eqn:E.
    + apply String.eqb_eq in E. exfalso. apply Hnotin.
      rewrite E. apply in_map, Hin.
    + apply IH; assumption.
Qed.

Lemma getNodePos_own (g : Graph) (n : Node) :
  NoDup (List.map id (nodes g)) -> In n (nodes g) ->
  getNodePos g (id n) = center (render_node n).
Proof.
  intros Hnd Hin. unfold getNodePos, find_node.
  rewrite (find_unique (nodes g) n Hnd Hin). reflexivity.
Qed.

(** X3.  In a snapshot whose node ids are distinct, an edge between two
    of its nodes is drawn from the marker of its source to the marker of
    its target, and a route through nodes of the snapshot is drawn
    through their markers, in order. *)
Theorem lines_meet_markers
  (g : Graph) (e : Edge) (a b : Node) (via : list Node) (rd : RouteData)
  (Hids : NoDup (List.map id (nodes g)))
  (Ha : In a (nodes g)) (Hb : In b (nodes g))
  (Hsrc : source e = id a) (Htgt : target e = id b)
  (Hvia : incl via (nodes g))
  (Hpath : path rd = Some (List.map id via)) :
  positions (render_edge g e) = [center (render_node a); center (render_node b)]
  /\ render_route g (Some rd)
     = Ok (Some (mkPolyline (List.map (fun n => center (render_node n)) via)
                            route_options)).
Proof.
  split.
  - unfold render_edge. rewrite Hsrc, Htgt.
    rewrite (getNodePos_own g a Hids Ha), (getNodePos_own g b Hids Hb).
    destruct (gtb _ _); [reflexivity|]. destruct (gtb _ _); reflexivity.
  - unfold render_route. rewrite Hpath. do 3 f_equal.
    rewrite map_map. apply map_ext_in. intros n Hn.
    apply getNodePos_own; [exact Hids|]. apply Hvia, Hn.
Qed.

(** The theorem at the edge of the sample graph and the route a, b. *)
Lemma lines_meet_markers_witness :
  positions (render_edge zero_capacity_graph (mkEdge "a" "b" (of_Z 0) (of_Z 3)))
  = [center (render_node (mkNode "a" (of_Z 0) (of_Z 0)));
     center (render_node (mkNode "b" (of_Z 1) (of_Z 0)))].
Proof.
  assert (Hids : NoDup (List.map id (nodes zero_capacity_graph))).
  { simpl. repeat constructor; simpl; intuition discriminate. }
  destruct (lines_meet_markers zero_capacity_graph
              (mkEdge "a" "b" (of_Z 0) (of_Z 3))
              (mkNode "a" (of_Z 0) (of_Z 0)) (mkNode "b" (of_Z 1) (of_Z 0))
              (nodes zero_capacity_graph)
              (mkRouteData (Some ["a"; "b"]%string) None None None)
              Hids (or_introl eq_refl) (or_intror (or_introl eq_refl))
              eq_refl eq_refl (incl_refl _) eq_refl) as [H _].
  exact H.
Defined.

End LeafletLayers.

(** ** Google map: viewport and route layer *)

Section GoogleLayers.

Import GoogleMap Vocabulary.

Lemma valid_points_in (g : list (option LatLng)) (la ln : num) :
  In (la, ln) (valid_points g)
  <-> In (Some (mkLatLng (Some la) (Some ln))) g.
Proof.
  induction g as [|pt g IH]; simpl; [tauto|].
  destruct pt as [[[a|] [b|]]|]; simpl; rewrite IH;
    intuition congruence.
Qed.

(** X4.  The viewport is fitted to the usable points of the route
    geometry whenever there is one, and the graph is then ignored; it is
    fitted to the graph nodes only when the route has no usable point;
    nothing is fitted exactly when there is neither.  A usable point is
    an entry of the geometry with a numeric lat and lng. *)
Theorem MapBounds_route_first (ns : list Node) (routeData : option RouteData) :
  (route_points routeData <> [] ->
     MapBounds ns routeData = Some (route_points routeData))
  /\ (route_points routeData = [] -> ns <> [] ->
        MapBounds ns routeData = Some (List.map (fun n => (y n, x n)) ns))
  /\ (MapBounds ns routeData = None
      <-> route_points routeData = [] /\ ns = [])
  /\ (forall rd g la ln,
        routeData = Some rd -> geometry rd = Some g ->
        (In (la, ln) (route_points routeData)
         <-> In (Some (mkLatLng (Some la) (Some ln))) g)).
Proof.
  assert (E : MapBounds ns routeData
              = match route_points routeData with
                | _ :: _ => Some (route_points routeData)
                | [] => match List.map (fun n => (y n, x n)) ns with
                        | [] => None
                        | pts => Some pts
                        end
                end) by reflexivity.
  rewrite E. clear E.
  split; [|split; [|split]].
  - destruct (route_points routeData); [congruence|reflexivity].
  - intros -> Hns. destruct ns; [congruence|reflexivity].
  - destruct (route_points routeData); split.
    + destruct ns; [auto|discriminate].
    + intros [_ ->]. reflexivity.
    + discriminate.
    + intros [H _]. discriminate.
  - intros rd g la ln -> Hg. unfold route_points. rewrite Hg.
    apply valid_points_in.
Qed.

Lemma nth_pred_last {A : Type} (l : list A) (d : A) :
  nth (List.length l - 1) l d = last l d.
Proof.
  induction l as [|a l IH]; [reflexivity|].
  destruct l as [|b l]; [reflexivity|].
  simpl in *. rewrite Nat.sub_0_r in IH. exact IH.
Qed.

(** X5.  A route with a non-empty geometry is drawn as one polyline
    through the geometry as received, with the start marker on its first
    entry and the end marker on its last one (a null entry gets no
    marker); no route layer is drawn exactly when the geometry is absent
    or empty. *)
Theorem route_markers_at_both_ends
  (rd : RouteData) (p : option LatLng) (g : list (option LatLng))
  (Hgeo : geometry rd = Some (p :: g)) :
  (exists layer,
     render_route (Some rd) = Some layer
     /\ line_path layer = p :: g
     /\ start_marker layer = p
     /\ end_marker layer = last (p :: g) None)
  /\ (forall rd', render_route (Some rd') = None
                  <-> geometry rd' = None \/ geometry rd' = Some []).
Proof.
  split.
  - unfold render_route, route_try. rewrite Hgeo.
    change (Nat.ltb 0 (List.length (p :: g))) with true. cbv iota.
    eexists. split; [reflexivity|]. simpl line_path. simpl start_marker.
    split; [reflexivity|]. split; [reflexivity|].
    unfold end_marker. apply nth_pred_last.
  - intros rd'. unfold render_route, route_try.
    destruct (geometry rd') as [[|q l]|]; simpl; split; auto;
      try discriminate; intros [H|H]; discriminate.
Qed.

(** The theorem at a geometry of two points. *)
Lemma route_markers_at_both_ends_witness :
  exists layer,
    render_route
      (Some (mkRouteData None
               (Some [Some (mkLatLng (Some (Fin (5150 # 100))) (Some (Fin (- (9 # 100)))));
                      Some (mkLatLng (Some (Fin (5151 # 100))) (Some (Fin (- (8 # 100)))))])
               None None)) = Some layer
    /\ end_marker layer
       = Some (mkLatLng (Some (Fin (5151 # 100))) (Some (Fin (- (8 # 100))))).
Proof.
  destruct (route_markers_at_both_ends
              (mkRouteData None
                 (Some [Some (mkLatLng (Some (Fin (5150 # 100))) (Some (Fin (- (9 # 100)))));
                        Some (mkLatLng (Some (Fin (5151 # 100))) (Some (Fin (- (8 # 100)))))])
                 None None)
              _ _ eq_refl) as [[layer [H1 [_ [_ H2]]]] _].
  exists layer. split; [exact H1|exact H2].
Defined.

Example route_keeps_first_point :
  option_map (fun l => List.length (line_path l))
    (render_route (Some route_one)) = Some 1%nat.
Proof. reflexivity. Qed.

End GoogleLayers.

(** ** StatsPanel: what the bars and the texts show *)

Section PanelFigures.

Import StatsPanel Vocabulary.
Local Open Scope Q_scope.

(** X7.  [getPercent] is the clamp of the width [CostBar] draws, for
    every value and total: it equals the drawn width when that lies in
    [5,100], it is 100 when the drawn width is beyond 100 and 5 when the
    drawn width is under 5, and it is NaN when the drawn width is. *)
Theorem getPercent_clamps_what_CostBar_draws (l c : string) (t v : num) :
  (between 5 100 (bar_width (CostBar l v t c)) ->
     same (getPercent t v) (bar_width (CostBar l v t c)))
  /\ (ltb (of_Z 100) (bar_width (CostBar l v t c)) = true ->
        getPercent t v = of_Z 100)
  /\ (ltb (bar_width (CostBar l v t c)) (of_Z 5) = true ->
        getPercent t v = of_Z 5)
  /\ (bar_width (CostBar l v t c) = NaN -> getPercent t v = NaN).
Proof.
  assert (E : getPercent t v
              = min (of_Z 100) (max (of_Z 5) (bar_width (CostBar l v t c))))
    by reflexivity.
  rewrite E. clear E.
  destruct (bar_width (CostBar l v t c)) as [| | |w].
  - repeat split; intros H; try reflexivity; try discriminate H; destruct H.
  - repeat split; intros H; try reflexivity; try discriminate H; destruct H.
  - repeat split; intros H; try reflexivity; try discriminate H; destruct H.
  - unfold of_Z.
    destruct (max_fin (inject_Z 5) w) as [m [Hm Em]]. rewrite Hm.
    destruct (min_fin (inject_Z 100) m) as [r [Hr Er]]. rewrite Hr.
    split; [|split; [|split]].
    + intros [Hlo Hhi]. simpl. rewrite Er, Em.
      rewrite (Q.max_r 5 w), (Q.min_r 100 w) by assumption. reflexivity.
    + intros H. apply ltb_fin in H.
      unfold max in Hm. simpl in Hm.
      assert (A : ltb (Fin (inject_Z 5)) (Fin w) = true)
        by (apply ltb_fin; change (inject_Z 5) with 5;
            change (inject_Z 100) with 100 in H; lra).
      unfold ltb in A. rewrite A in Hm. injection Hm as <-.
      unfold min in Hr. simpl in Hr.
      assert (B : ltb (Fin w) (Fin (inject_Z 100)) = false)
        by (apply ltb_fin_false; apply Qlt_le_weak; exact H).
      unfold ltb in B. rewrite B in Hr. symmetry. exact Hr.
    + intros H. apply ltb_fin in H.
      unfold max in Hm. simpl in Hm.
      assert (A : ltb (Fin (inject_Z 5)) (Fin w) = false)
        by (apply ltb_fin_false; apply Qlt_le_weak; exact H).
      unfold ltb in A. rewrite A in Hm. injection Hm as <-.
      rewrite <- Hr. reflexivity.
    + discriminate.
Qed.

(** *** The texts of [toFixed] *)

Lemma length_append (a b : string) :
  String.length (a ++ b) = (String.length a + String.length b)%nat.
Proof. induction a as [|ch a IH]; simpl; [reflexivity|]. rewrite IH. reflexivity. Qed.

Lemma length_zeros (k : nat) : String.length (zeros k) = k.
Proof. induction k as [|k IH]; simpl; [reflexivity|]. rewrite IH. reflexivity. Qed.

Lemma length_substring (s : string) (n m : nat) :
  (n + m <= String.length s)%nat -> String.length (substring n m s) = m.
Proof.
  revert n m. induction s as [|ch s IH]; intros n m H; simpl in *.
  - destruct n, m; simpl in *; try reflexivity; lia.
  - destruct n as [|n].
    + destruct m as [|m]; [reflexivity|]. simpl. rewrite (IH 0%nat m); [reflexivity|].
      simpl in *. lia.
    + apply IH. lia.
Qed.

Lemma fraction_of_append (a b : string) :
  fraction_of a = None -> fraction_of (a ++ "." ++ b) = Some b.
Proof.
  induction a as [|ch a IH]; simpl; [reflexivity|].
  destruct (Ascii.eqb ch "."); [discriminate|]. exact IH.
Qed.

Lemma no_point_append (a b : string) :
  fraction_of a = None -> fraction_of b = None -> fraction_of (a ++ b) = None.
Proof.
  induction a as [|ch a IH]; simpl; [tauto|].
  destruct (Ascii.eqb ch "."); [discriminate|]. exact IH.
Qed.

Lemma no_point_substring (s : string) (n m : nat) :
  fraction_of s = None -> fraction_of (substring n m s) = None.
Proof.
  revert n m. induction s as [|ch s IH]; intros n m H; simpl in *.
  - destruct n, m; reflexivity.
  - destruct (Ascii.eqb ch ".") eqn:E; [discriminate|].
    destruct n as [|n]; [|apply IH, H].
    destruct m as [|m]; [reflexivity|]. simpl. rewrite E. apply IH, H.
Qed.

Lemma no_point_zeros (k : nat) : fraction_of (zeros k) = None.
Proof. induction k as [|k IH]; simpl; [reflexivity|exact IH]. Qed.

Lemma no_point_uint (d : Decimal.uint) :
  fraction_of (NilEmpty.string_of_uint d) = None.
Proof. induction d; simpl; assumption || reflexivity. Qed.

Lemma no_point_digits (n : Z) : fraction_of (digits_of n) = None.
Proof.
  unfold digits_of, NilZero.string_of_uint.
  destruct (N.to_uint (Z.to_N n)); try reflexivity;
    apply (no_point_uint (_ _)).
Qed.

Lemma fixed_text_decimals (f : nat) (n : Z) :
  option_map String.length (fraction_of (fixed_text f n))
  = match f with O => None | _ => Some f end.
Proof.
  unfold fixed_text. destruct f as [|f].
  - rewrite no_point_digits. reflexivity.
  - set (m := digits_of n).
    set (m' := if Nat.leb (String.length m) (S f)
               then zeros (S f + 1 - String.length m) ++ m else m).
    assert (Hm' : fraction_of m' = None).
    { unfold m'. destruct (Nat.leb _ _).
      - apply no_point_append; [apply no_point_zeros|apply no_point_digits].
      - apply no_point_digits. }
    assert (Hlen : (S f <= String.length m')%nat).
    { unfold m'. destruct (Nat.leb (String.length m) (S f)) eqn:E.
      - apply Nat.leb_le in E. rewrite length_append, length_zeros. lia.
      - apply Nat.leb_gt in E. lia. }
    rewrite fraction_of_append by (apply no_point_substring, Hm').
    simpl option_map. rewrite length_substring; [reflexivity|lia].
Qed.

Lemma toFixed_decimals (f : nat) (q : Q) :
  displayable q ->
  decimals (toFixed f (Fin q)) = match f with O => None | _ => Some f end.
Proof.
  unfold displayable, toFixed. intros H.
  destruct (Qle_bool (inject_Z (10 ^ 21)) (Qabs q)) eqn:E.
  - apply Qle_bool_iff in E. exfalso. apply (Qlt_not_le _ _ H E).
  - unfold decimals. destruct (q ?= 0); apply fixed_text_decimals.
Qed.

Lemma minutes_displayable (h : Q) :
  Vocabulary.hours_displayable h -> displayable (h * 60).
Proof.
  unfold Vocabulary.hours_displayable, displayable. intros H.
  rewrite Qabs_Qmult. change (Qabs 60) with 60.
  change (inject_Z (10 ^ 19)) with (10000000000000000000 # 1) in H.
  change (inject_Z (10 ^ 21)) with (1000000000000000000000 # 1).
  lra.
Qed.

(** X8.  For finite costs below 10^21 and a travel time below 10^19
    hours (in absolute value), the panel shows the travel time with
    exactly one digit after the point and the total and the four
    component costs with exactly two. *)
Theorem panel_texts_have_fixed_decimals
  (pth : option (list NodeId)) (geo : option (list (option LatLng)))
  (pn : option (list NodeId)) (t a b c d h : Q)
  (Ht : displayable t) (Ha : displayable a) (Hb : displayable b)
  (Hc : displayable c) (Hd : displayable d)
  (Hh : Vocabulary.hours_displayable h) :
  exists v,
    StatsPanel (Some (mkRouteData pth geo pn
       (Some (mkCostVector (Some (Fin t)) (Some (Fin a)) (Some (Fin b))
                           (Some (Fin c)) (Some (Fin d)) (Some (Fin h))))))
    = Some v
    /\ decimals (travel_time_text v) = Some 1%nat
    /\ decimals (total_cost_text v) = Some 2%nat
    /\ List.map (fun bar => decimals (bar_value_text bar)) (bars v)
       = [Some 2%nat; Some 2%nat; Some 2%nat; Some 2%nat].
Proof.
  eexists. split; [reflexivity|].
  cbn [travel_time_text total_cost_text bars List.map stats total_cost
       time_cost congestion_penalty emission_cost social_cost
       travel_time_hours default0 CostBar bar_value_text].
  unfold of_Z. cbn [mul]. change (inject_Z 60) with 60.
  rewrite (toFixed_decimals 1 _ (minutes_displayable h Hh)),
    (toFixed_decimals 2 t Ht),
    (toFixed_decimals 2 a Ha), (toFixed_decimals 2 b Hb),
    (toFixed_decimals 2 c Hc), (toFixed_decimals 2 d Hd).
  repeat split.
Qed.

(** The theorem at the figures of scenario A. *)
Lemma panel_texts_have_fixed_decimals_witness :
  exists v,
    StatsPanel (Some (mkRouteData None None None
       (Some (mkCostVector (Some (Fin 10)) (Some (Fin 6)) (Some (Fin 2))
                           (Some (Fin 1)) (Some (Fin 1)) (Some (Fin (2 # 10)))))))
    = Some v
    /\ decimals (travel_time_text v) = Some 1%nat.
Proof.
  destruct (panel_texts_have_fixed_decimals None None None 10 6 2 1 1 (2 # 10)
              eq_refl eq_refl eq_refl eq_refl eq_refl eq_refl)
    as [v [H1 [H2 _]]].
  exists v. split; [exact H1|exact H2].
Defined.

Example footer_counts_every_node :
  option_map footer
    (StatsPanel (Some (mkRouteData None None (Some ["1"; "2"; "3"]%string)
                                   (Some empty_stats))))
  = Some (PathNodes 3).
Proof. reflexivity. Qed.

End PanelFigures.

(** ** Legacy ControlPanel: the geocode chain *)

Section LegacyChain.

Import LegacyControlPanel Vocabulary Http.

Lemma legacy_awaited_single (s : State) (k n : nat) (st : stage) :
  in_flight s = [(k, st)] ->
  awaited n s = if Nat.eqb k n then Some st else None.
Proof.
  intros F. unfold awaited. rewrite F. simpl. unfold is_call. simpl.
  destruct (Nat.eqb k n); reflexivity.
Qed.

Lemma legacy_step_serialized (s : State) (e : event) :
  legacy_ui_event e = true -> legacy_serialized s ->
  legacy_serialized (step s e).
Proof.
  unfold legacy_serialized. intros He H.
  destruct e as [t|t|t| | |n r]; simpl in *; try exact H; try discriminate.
  - (* Click *)
    unfold click, disabled.
    destruct (in_flight s) as [|[k st] [|q l]] eqn:F.
    + rewrite H. simpl.
      destruct (negb (truthy (startAddr s)) || negb (truthy (endAddr s)))%bool;
        [rewrite F; exact H|].
      unfold handleRoute. simpl. rewrite F. simpl. split; reflexivity.
    + destruct H as [H K]. rewrite H. simpl. rewrite F. split; assumption.
    + contradiction.
  - (* Settle *)
    unfold handleRoute_resume.
    destruct (in_flight s) as [|[k st] [|q l]] eqn:F.
    + unfold awaited. rewrite F. simpl. rewrite F. exact H.
    + rewrite (legacy_awaited_single s k n st F).
      destruct (Nat.eqb k n) eqn:E; [|rewrite F; exact H].
      apply Nat.eqb_eq in E. subst n.
      destruct H as [L K].
      destruct st as [sa ea tm|ea sn tm|p]; destruct r as [nid|dat|err];
        try (destruct sn as [?|]; destruct nid as [?|]);
        simpl; try rewrite F; simpl; unfold is_call; simpl;
        rewrite ?Nat.eqb_refl; simpl; auto.
    + contradiction.
Qed.

(** X9.  In the legacy panel the button is disabled while [loading], so
    whatever the user does and however the calls settle, at most one
    [handleRoute] is suspended at any time, [loading] is true exactly
    while one is, and it is the one started last. *)
Theorem legacy_requests_serialized
  (es : list event) (a : App.State)
  (Hui : forallb legacy_ui_event es = true) :
  legacy_serialized (run es (init a))
  /\ (List.length (in_flight (run es (init a))) <= 1)%nat
  /\ (loading (run es (init a)) = true
      <-> in_flight (run es (init a)) <> []).
Proof.
  assert (Inv : legacy_serialized (run es (init a))).
  { generalize (init a) (eq_refl : legacy_serialized (init a)).
    induction es as [|e es IH]; intros s Hs; [exact Hs|].
    simpl in Hui. apply andb_true_iff in Hui. destruct Hui as [He Hes].
    simpl. apply IH; [exact Hes|]. apply legacy_step_serialized; assumption. }
  split; [exact Inv|].
  unfold legacy_serialized in Inv.
  destruct (in_flight (run es (init a))) as [|[k st] [|q l]].
  - split; [simpl; lia|]. rewrite Inv. split; [discriminate|congruence].
  - destruct Inv as [L _]. split; [simpl; lia|]. rewrite L.
    split; [discriminate|reflexivity].
  - contradiction.
Qed.

(** The theorem after two clicks in a row and the first geocode. *)
Lemma legacy_requests_serialized_witness :
  List.map fst
    (in_flight (run [TypeStart "Wall St"; TypeEnd "Broadway"; Click; Click;
                     Settle 1 (Geocoded (Some "5"%string))] (init App.init)))
  = [1%nat].
Proof.
  pose proof (legacy_requests_serialized
                [TypeStart "Wall St"; TypeEnd "Broadway"; Click; Click;
                 Settle 1 (Geocoded (Some "5"%string))] App.init eq_refl)
    as [_ [H _]].
  reflexivity.
Defined.



Lemma legacy_edits_keep_calls (es : list event) (s : State) :
  forallb legacy_edit es = true ->
  in_flight (run es s) = in_flight s
  /\ loading (run es s) = loading s
  /\ issued (run es s) = issued s
  /\ app (run es s) = app s
  /\ alerts (run es s) = alerts s.
Proof.
  revert s. induction es as [|e es IH]; intros s H; [repeat split|].
  simpl in H. apply andb_true_iff in H. destruct H as [He Hes].
  simpl. destruct (IH (step s e) Hes) as [I1 [I2 [I3 [I4 I5]]]].
  rewrite I1, I2, I3, I4, I5.
  destruct e; try discriminate; repeat split.
Qed.

(** X11.  The route request of the legacy panel is made of what the
    form held at the click and of the two geocode answers: it asks for
    the route from the node of the first answer to the node of the
    second, at the hour shown at the click, and the end address that is
    geocoded is the one typed at the click.  Edits of the form made
    while the calls are pending change none of it. *)
Theorem legacy_request_built_at_click
  (s : State) (edits1 edits2 : list event) (a b : NodeId)
  (Hidle : in_flight s = [])
  (Hready : disabled s = false)
  (He1 : forallb legacy_edit edits1 = true)
  (He2 : forallb legacy_edit edits2 = true) :
  let k := S (issued s) in
  let s1 := run (Click :: edits1) s in
  let s2 := run (Settle k (Geocoded (Some a)) :: edits2) s1 in
  let s3 := step s2 (Settle k (Geocoded (Some b))) in
  in_flight s1 = [(k, AwaitStart (startAddr s) (endAddr s) (time s))]
  /\ in_flight s2 = [(k, AwaitEnd (endAddr s) (Some a) (time s))]
  /\ in_flight s3 = [(k, AwaitRoute (mkPayload a b (time s)))]
  /\ loading s3 = true
  /\ alerts s3 = alerts s.
Proof.
  cbv zeta.
  assert (S1 : in_flight (run (Click :: edits1) s)
               = [(S (issued s), AwaitStart (startAddr s) (endAddr s) (time s))]).
  { simpl. destruct (legacy_edits_keep_calls edits1 (click s) He1) as [I _].
    rewrite I. unfold click. rewrite Hready. unfold handleRoute. simpl.
    rewrite Hidle. reflexivity. }
  assert (A1 : alerts (run (Click :: edits1) s) = alerts s).
  { simpl. destruct (legacy_edits_keep_calls edits1 (click s) He1)
      as [_ [_ [_ [_ I]]]].
    rewrite I. unfold click. rewrite Hready. reflexivity. }
  assert (L1 : loading (run (Click :: edits1) s) = true).
  { simpl. destruct (legacy_edits_keep_calls edits1 (click s) He1)
      as [_ [I _]].
    rewrite I. unfold click. rewrite Hready. reflexivity. }
  set (s1 := run (Click :: edits1) s) in *. clearbody s1.
  assert (R1 : step s1 (Settle (S (issued s)) (Geocoded (Some a)))
               = await (S (issued s)) (AwaitEnd (endAddr s) (Some a) (time s))
                       (forget (S (issued s)) s1)).
  { simpl. unfold handleRoute_resume.
    rewrite (legacy_awaited_single s1 _ (S (issued s)) _ S1), Nat.eqb_refl.
    reflexivity. }
  assert (X : run (Settle (S (issued s)) (Geocoded (Some a)) :: edits2) s1
              = run edits2 (step s1 (Settle (S (issued s)) (Geocoded (Some a)))))
    by reflexivity.
  assert (S2 : in_flight (run (Settle (S (issued s)) (Geocoded (Some a)) :: edits2) s1)
               = [(S (issued s), AwaitEnd (endAddr s) (Some a) (time s))]).
  { rewrite X.
    destruct (legacy_edits_keep_calls edits2
                (step s1 (Settle (S (issued s)) (Geocoded (Some a)))) He2) as [I _]. rewrite I.
    rewrite R1. simpl. rewrite S1. simpl. unfold is_call. simpl.
    rewrite Nat.eqb_refl. reflexivity. }
  assert (A2 : alerts (run (Settle (S (issued s)) (Geocoded (Some a)) :: edits2) s1)
               = alerts s).
  { rewrite X.
    destruct (legacy_edits_keep_calls edits2
                (step s1 (Settle (S (issued s)) (Geocoded (Some a)))) He2) as [_ [_ [_ [_ I]]]].
    rewrite I, R1. exact A1. }
  assert (L2 : loading (run (Settle (S (issued s)) (Geocoded (Some a)) :: edits2) s1)
               = true).
  { rewrite X.
    destruct (legacy_edits_keep_calls edits2
                (step s1 (Settle (S (issued s)) (Geocoded (Some a)))) He2) as [_ [I _]].
    rewrite I, R1. exact L1. }
  set (s2 := run (Settle (S (issued s)) (Geocoded (Some a)) :: edits2) s1) in *.
  clearbody s2.
  split; [exact S1|]. split; [exact S2|].
  simpl step. unfold handleRoute_resume.
  rewrite (legacy_awaited_single s2 _ (S (issued s)) _ S2), Nat.eqb_refl.
  simpl. rewrite S2. simpl. unfold is_call. simpl. rewrite Nat.eqb_refl.
  repeat split; assumption.
Qed.

(** The theorem when the hour and the end address are changed while
    the first geocode call is pending. *)
Lemma legacy_request_built_at_click_witness :
  in_flight
    (run [Click; ChangeTime 17; TypeEnd "Elsewhere";
          Settle 1 (Geocoded (Some "5"%string));
          Settle 1 (Geocoded (Some "12"%string))]
         (run [TypeStart "Wall St"; TypeEnd "Broadway"] (init App.init)))
  = [(1%nat, AwaitRoute (mkPayload "5" "12" 8))].
Proof.
  pose proof (legacy_request_built_at_click
                (run [TypeStart "Wall St"; TypeEnd "Broadway"] (init App.init))
                [ChangeTime 17; TypeEnd "Elsewhere"] [] "5"%string "12"%string
                eq_refl eq_refl eq_refl eq_refl) as H.
  cbv zeta in H. destruct H as [_ [_ [H _]]]. exact H.
Defined.

End LegacyChain.

(** ** Coordinate ControlPanel: when and what it requests *)

Section CoordinateRequests.

Import ControlPanel Vocabulary.

Lemma step_untouched_no_start (a : App.State) (s : State) (e : event) :
  selects_start e = false ->
  startLocation s = None /\ untouched a s ->
  startLocation (step s e) = None /\ untouched a (step s e).
Proof.
  unfold untouched. intros He [Hn [F [L [A [I P]]]]].
  destruct e as [l|l|t| | |n r]; simpl in *; try discriminate;
    try (repeat split; assumption).
  - unfold click, disabled. rewrite L, Hn. simpl. repeat split; assumption.
  - unfold handleRoute. rewrite Hn. repeat split; assumption.
  - unfold handleRoute_resume, awaited. rewrite F. simpl.
    repeat split; assumption.
Qed.

Lemma step_untouched_no_end (a : App.State) (s : State) (e : event) :
  selects_end e = false ->
  endLocation s = None /\ untouched a s ->
  endLocation (step s e) = None /\ untouched a (step s e).
Proof.
  unfold untouched. intros He [Hn [F [L [A [I P]]]]].
  destruct e as [l|l|t| | |n r]; simpl in *; try discriminate;
    try (repeat split; assumption).
  - unfold click, disabled. rewrite L, Hn. simpl.
    rewrite orb_true_r. repeat split; assumption.
  - unfold handleRoute. rewrite Hn.
    destruct (startLocation s); repeat split; assumption.
  - unfold handleRoute_resume, awaited. rewrite F. simpl.
    repeat split; assumption.
Qed.

(** X12.  No route is requested before both places are chosen: as long
    as no start has been selected, or no end has, every click and every
    call of [handleRoute] does nothing - no request is made, [loading]
    stays false, nothing is alerted and the App state is untouched. *)
Theorem no_request_without_both_places
  (es : list event) (a : App.State)
  (Hnone : forallb (fun e => negb (selects_start e)) es = true
           \/ forallb (fun e => negb (selects_end e)) es = true) :
  in_flight (run es (init a)) = []
  /\ loading (run es (init a)) = false
  /\ alerts (run es (init a)) = []
  /\ issued (run es (init a)) = 0%nat
  /\ app (run es (init a)) = a.
Proof.
  change (untouched a (run es (init a))).
  assert (U0 : untouched a (init a)) by (repeat split).
  destruct Hnone as [H|H].
  - assert (G : forall s, startLocation s = None /\ untouched a s ->
                          startLocation (run es s) = None
                          /\ untouched a (run es s)).
    { induction es as [|e es IH]; intros s Hs; [exact Hs|].
      simpl in H. apply andb_true_iff in H. destruct H as [He Hes].
      apply negb_true_iff in He. simpl. apply IH; [exact Hes|].
      apply step_untouched_no_start; assumption. }
    apply (G (init a)). split; [reflexivity|exact U0].
  - assert (G : forall s, endLocation s = None /\ untouched a s ->
                          endLocation (run es s) = None
                          /\ untouched a (run es s)).
    { induction es as [|e es IH]; intros s Hs; [exact Hs|].
      simpl in H. apply andb_true_iff in H. destruct H as [He Hes].
      apply negb_true_iff in He. simpl. apply IH; [exact Hes|].
      apply step_untouched_no_end; assumption. }
    apply (G (init a)). split; [reflexivity|exact U0].
Qed.

(** The theorem when only an end is chosen. *)
Lemma no_request_without_both_places_witness :
  in_flight (run [SelectEnd place_b; ChangeTime 9; Click; Call] (init App.init))
  = [].
Proof.
  destruct (no_request_without_both_places
              [SelectEnd place_b; ChangeTime 9; Click; Call] App.init
              (or_introl eq_refl)) as [H _].
  exact H.
Defined.

Lemma edits_keep_requests (es : list event) (s : State) :
  forallb edit es = true ->
  in_flight (run es s) = in_flight s
  /\ loading (run es s) = loading s
  /\ issued (run es s) = issued s
  /\ app (run es s) = app s.
Proof.
  revert s. induction es as [|e es IH]; intros s H; [repeat split|].
  simpl in H. apply andb_true_iff in H. destruct H as [He Hes].
  simpl. destruct (IH (step s e) Hes) as [I1 [I2 [I3 I4]]].
  rewrite I1, I2, I3, I4.
  destruct e; try discriminate; repeat split.
Qed.

(** X13.  The body of the route request is fixed at the click: the
    latitude and longitude of the start and of the end chosen then
    ([lng] sent as [lon]) and the hour shown then.  Choosing other
    places or another hour while the request is pending does not change
    it, and its result is what the App then shows. *)
Theorem request_built_at_click
  (s : State) (la lb : Location) (edits : list event)
  (d : option RouteData)
  (Hidle : in_flight s = [])
  (Hload : loading s = false)
  (Ha : startLocation s = Some la)
  (Hb : endLocation s = Some lb)
  (Hedits : forallb edit edits = true) :
  let k := S (issued s) in
  let s1 := run (Click :: edits) s in
  in_flight s1
  = [(k, mkPayload (loc_lat la) (loc_lng la) (loc_lat lb) (loc_lng lb) (time s))]
  /\ loading s1 = true
  /\ App.routeData (app (step s1 (Settle k (Resolved d)))) = d
  /\ loading (step s1 (Settle k (Resolved d))) = false.
Proof.
  cbv zeta.
  assert (C : click s
              = post_route (mkPayload (loc_lat la) (loc_lng la)
                                      (loc_lat lb) (loc_lng lb) (time s))
                  (setStatus "Downloading map & Computing route... (this may take a moment)"
                     (setStatus "Resolving nodes & Route..." (setLoading true s)))).
  { unfold click, disabled. rewrite Hload, Ha, Hb. simpl.
    unfold handleRoute. rewrite Ha, Hb. reflexivity. }
  assert (X : run (Click :: edits) s = run edits (click s)) by reflexivity.
  destruct (edits_keep_requests edits (click s) Hedits) as [I1 [I2 [I3 I4]]].
  assert (S1 : in_flight (run (Click :: edits) s)
               = [(S (issued s),
                   mkPayload (loc_lat la) (loc_lng la) (loc_lat lb) (loc_lng lb)
                             (time s))]).
  { rewrite X, I1, C. simpl. rewrite Hidle. reflexivity. }
  assert (L1 : loading (run (Click :: edits) s) = true).
  { rewrite X, I2, C. reflexivity. }
  set (s1 := run (Click :: edits) s) in *. clearbody s1.
  split; [exact S1|]. split; [exact L1|].
  simpl step. unfold handleRoute_resume, awaited. rewrite S1. simpl.
  unfold is_req. simpl. rewrite Nat.eqb_refl. simpl. split; reflexivity.
Qed.

(** The theorem when another start and hour are chosen meanwhile. *)
Lemma request_built_at_click_witness :
  List.map snd
    (in_flight
       (run [Click; SelectStart place_b; ChangeTime 17]
            (run [SelectStart place_a; SelectEnd place_b] (init App.init))))
  = [mkPayload (loc_lat place_a) (loc_lng place_a)
               (loc_lat place_b) (loc_lng place_b) 8].
Proof.
  pose proof (request_built_at_click
                (run [SelectStart place_a; SelectEnd place_b] (init App.init))
                place_a place_b [SelectStart place_b; ChangeTime 17]
                (Some route_one) eq_refl eq_refl eq_refl eq_refl eq_refl) as H.
  cbv zeta in H. destruct H as [H _]. rewrite H. reflexivity.
Defined.

End CoordinateRequests.

(** ** The development proxy *)

Section DevProxy.

Import Vite.

Lemma substring_all (s : string) : substring 0 (String.length s) s = s.
Proof. induction s as [|c s IH]; simpl; [reflexivity|]. rewrite IH. reflexivity. Qed.

Lemma prefix_empty (p : string) : String.prefix "" p = true.
Proof. destruct p; reflexivity. Qed.

Lemma prefix_api (p : string) : String.prefix "/api" ("/api" ++ p) = true.
Proof. simpl. apply prefix_empty. Qed.

Lemma rewrite_strips (p : string) : rewrite ("/api" ++ p) = p.
Proof.
  unfold rewrite. rewrite prefix_api. simpl. rewrite Nat.sub_0_r.
  apply substring_all.
Qed.

(** X14.  The [rewrite] of the [/api] rule removes the prefix [/api]
    from a path that starts with it, once and only there: what follows
    the prefix is returned as it is, a second [/api] behind the first
    stays, and a path that does not start with [/api] is returned
    unchanged. *)
Theorem rewrite_strips_api_prefix_once (p : string)
  (Hplain : String.prefix "/api" p = false) :
  (forall q : string, rewrite ("/api" ++ q) = q)
  /\ rewrite p = p
  /\ rewrite ("/api" ++ "/api" ++ p) = ("/api" ++ p)%string
  /\ rewrite (rewrite ("/api" ++ p)) = p.
Proof.
  split; [apply rewrite_strips|].
  assert (R : rewrite p = p) by (unfold rewrite; rewrite Hplain; reflexivity).
  split; [exact R|].
  split; [apply rewrite_strips|].
  rewrite rewrite_strips. exact R.
Qed.

(** The theorem at the path of the layout poll. *)
Lemma rewrite_strips_api_prefix_once_witness :
  rewrite "/api/network/layout" = "/network/layout"%string
  /\ rewrite "/network/layout" = "/network/layout"%string.
Proof.
  destruct (rewrite_strips_api_prefix_once "/network/layout" eq_refl)
    as [H1 [H2 _]].
  split; [apply (H1 "/network/layout"%string)|exact H2].
Defined.

Example forward_not_proxied : forward "/index.html" = None.
Proof. reflexivity. Qed.

Example rewrite_without_slash : rewrite "/apiary" = "ary"%string.
Proof. reflexivity. Qed.

End DevProxy.

(** ** PlacesAutocomplete: picking a suggestion *)

Section PickingPlaces.

Import Places.

Lemma eqb_succ_r (i : nat) : Nat.eqb i (S i) = false.
Proof. apply Nat.eqb_neq. lia. Qed.

Lemma eqb_succ_l (i : nat) : Nat.eqb (S i) i = false.
Proof. apply Nat.eqb_neq. lia. Qed.

(** X15.  Picking a suggestion puts its text in the input and hides the
    list at once; the place is selected only when the geocode call
    answers, with the picked address and the coordinates of the first
    result, whatever was typed meanwhile.  When the call fails or has no
    result the previous selection stays (while the input shows the
    picked text) and one line is logged.  Of two picks in a row the one
    whose answer arrives last is selected. *)
Theorem picked_place_selected_on_answer
  (s : State) (a b text err : string) (la ln lb lnb : num)
  (rest rest' : list (num * num))
  (Hidle : in_flight s = []) :
  let k := S (issued s) in
  (value (handleSelect a s) = a /\ shown (handleSelect a s) = []
   /\ selected (handleSelect a s) = selected s)
  /\ (let s' := run [Pick a; Type_ text;
                     Settle k (GeocodeOk ((la, ln) :: rest))] s in
      selected s' = Some (ControlPanel.mkLocation a la ln)
      /\ value s' = text /\ console s' = console s)
  /\ (let s' := run [Pick a; Settle k (GeocodeFailed err)] s in
      selected s' = selected s /\ value s' = a
      /\ console s' = ("Error:  " ++ err)%string :: console s)
  /\ (let s' := run [Pick a; Settle k (GeocodeOk [])] s in
      selected s' = selected s /\ value s' = a
      /\ List.length (console s') = S (List.length (console s)))
  /\ (let s' := run [Pick a; Pick b;
                     Settle (S k) (GeocodeOk ((lb, lnb) :: rest'));
                     Settle k (GeocodeOk ((la, ln) :: rest))] s in
      selected s' = Some (ControlPanel.mkLocation a la ln)
      /\ value s' = b /\ in_flight s' = []).
Proof.
  destruct s as [rdy val st dat sel con fl iss]. simpl in Hidle. subst fl.
  cbv zeta. unfold run, step, handleSelect, handleSelect_resume, awaited,
    shown; simpl.
  repeat (progress (unfold is_call; simpl;
                    rewrite ?Nat.eqb_refl, ?eqb_succ_r, ?eqb_succ_l; simpl)).
  repeat split.
Qed.

(** The theorem from the initial state. *)
Lemma picked_place_selected_on_answer_witness :
  selected (run [Pick "Times Square"; Settle 1 (GeocodeFailed "ZERO_RESULTS")]
                init) = None
  /\ value (run [Pick "Times Square"; Settle 1 (GeocodeFailed "ZERO_RESULTS")]
                init) = "Times Square"%string.
Proof.
  pose proof (picked_place_selected_on_answer init
                "Times Square" "" "" "ZERO_RESULTS" NaN NaN NaN NaN [] []
                eq_refl) as H.
  cbv zeta in H. destruct H as [_ [_ [[H1 [H2 _]] _]]].
  split; [exact H1|exact H2].
Defined.

End PickingPlaces.

(** ** The client's calls through the proxy *)

Section ClientCalls.

Import Api Vite.

(** X16.  Every request the client makes - network stats and layout,
    route, traffic update, geocode and grid initialisation, whatever
    their arguments - is caught by a rule of the development proxy and
    sent to the backend with its path unchanged; a route computed
    without an hour asks for hour 8. *)
Theorem client_calls_reach_backend
  (Update : Type) (r : Request Update) (Hmade : made Update r) :
  forward (url Update r) = Some (backend, url Update r)
  /\ (forall a b, req_body Update (computeRoute Update a b None)
                  = RouteBody Update a b 8).
Proof.
  split; [|reflexivity].
  destruct Hmade; reflexivity.
Qed.

(** The theorem at the grid initialisation with 5 rows and 4 columns. *)
Lemma client_calls_reach_backend_witness :
  forward "/network/init-grid?rows=5&cols=4"
  = Some (backend, "/network/init-grid?rows=5&cols=4"%string).
Proof.
  destruct (client_calls_reach_backend unit (initGrid unit 5 4)
              (made_grid unit 5 4)) as [H _].
  exact H.
Defined.

End ClientCalls.

(** ** Leaflet map: edge emphasis *)

Section EdgeEmphasis.

Import Leaflet.
Local Open Scope Q_scope.

Lemma weight_by_load (g : Graph) (e : Edge) :
  weight (pathOptions (render_edge g e)) = snd (style_of_load (load e)).
Proof.
  destruct (render_edge_style g e) as [S _].
  rewrite <- S. reflexivity.
Qed.

Lemma style_weight_monotone (l1 l2 : Q) :
  l1 <= l2 ->
  (snd (style_of_load (Fin l1)) <= snd (style_of_load (Fin l2)))%Z.
Proof.
  intros H. unfold style_of_load, gtb.
  destruct (ltb (Fin (8 # 10)) (Fin l1)) eqn:A1.
  - apply ltb_fin in A1.
    assert (A2 : ltb (Fin (8 # 10)) (Fin l2) = true) by (apply ltb_fin; lra).
    rewrite A2. simpl. lia.
  - destruct (ltb (Fin (8 # 10)) (Fin l2)) eqn:A2.
    + destruct (ltb (Fin (5 # 10)) (Fin l1) && leb (Fin l1) (Fin (8 # 10)))%bool;
        simpl; lia.
    + apply ltb_fin_false in A1, A2.
      assert (L1 : leb (Fin l1) (Fin (8 # 10)) = true) by (apply leb_fin; lra).
      assert (L2 : leb (Fin l2) (Fin (8 # 10)) = true) by (apply leb_fin; lra).
      rewrite L1, L2, !andb_true_r.
      destruct (ltb (Fin (5 # 10)) (Fin l1)) eqn:B1.
      * apply ltb_fin in B1.
        assert (B2 : ltb (Fin (5 # 10)) (Fin l2) = true)
          by (apply ltb_fin; lra).
        rewrite B2. simpl. lia.
      * destruct (ltb (Fin (5 # 10)) (Fin l2)); simpl; lia.
Qed.

(** X17.  On edges of the same positive capacity the line never gets
    thinner as the flow grows: more flow gives the same or a heavier
    weight, and a flow above the capacity is always drawn in the
    emphasized style. *)
Theorem edge_weight_grows_with_flow
  (g : Graph) (e1 e2 : Edge) (c f1 f2 : Q)
  (Hc : 0 < c)
  (Hc1 : capacity e1 = Fin c) (Hc2 : capacity e2 = Fin c)
  (Hf1 : current_flow e1 = Fin f1) (Hf2 : current_flow e2 = Fin f2)
  (Hle : f1 <= f2) :
  (weight (pathOptions (render_edge g e1))
   <= weight (pathOptions (render_edge g e2)))%Z
  /\ (c < f2 ->
      (color (pathOptions (render_edge g e2)),
       weight (pathOptions (render_edge g e2))) = emphasized).
Proof.
  assert (L1 : load e1 = Fin (f1 / c)).
  { unfold load. rewrite Hc1, Hf1. apply div_fin_pos, Hc. }
  assert (L2 : load e2 = Fin (f2 / c)).
  { unfold load. rewrite Hc2, Hf2. apply div_fin_pos, Hc. }
  split.
  - rewrite !weight_by_load, L1, L2. apply style_weight_monotone.
    apply Qmult_le_compat_r; [exact Hle|].
    apply Qlt_le_weak, Qinv_lt_0_compat, Hc.
  - intros Hover. destruct (render_edge_style g e2) as [S _].
    rewrite S, L2.
    destruct (style_of_load_finite (f2 / c)) as [E _]. apply E.
    apply Qlt_shift_div_l; [exact Hc|]. lra.
Qed.

(** The theorem at flows 5 and 9 on capacity 10. *)
Lemma edge_weight_grows_with_flow_witness :
  (weight (pathOptions (render_edge one_node_graph
                          (mkEdge "a" "a" (Fin 10) (Fin 5))))
   <= weight (pathOptions (render_edge one_node_graph
                             (mkEdge "a" "a" (Fin 10) (Fin 9)))))%Z.
Proof.
  assert (Hc : 0 < 10) by reflexivity.
  assert (Hle : 5 <= 9) by discriminate.
  destruct (edge_weight_grows_with_flow one_node_graph
              (mkEdge "a" "a" (Fin 10) (Fin 5))
              (mkEdge "a" "a" (Fin 10) (Fin 9)) 10 5 9
              Hc eq_refl eq_refl eq_refl eq_refl Hle) as [H _].
  exact H.
Defined.

End EdgeEmphasis.
